(** * ymdflag: a [flag.Value] for YYYYMMDD dates

    Shallow embedding of package [ymdflag] (the [YMDFlag] type, its
    functions and methods) together with the parts of the Go standard
    library it calls: [time] (Date, Year, Month, Day, IsZero, In),
    [strconv] (Atoi, Itoa), [unicode] (IsDigit), [unicode/utf8] (string
    ranging, rune encoding) and [fmt] (the verbs [%04d], [%02d], [%c]).

    Conventions.
    - Go's [int] is the 64-bit [int] of the usual platforms; it is modelled
      as [Z], with the wrap-around written out ([wrap_i64], [wrap_u64])
      where the Go code converts or can overflow.
    - Go's [/] and [%] on signed integers truncate: [Z.quot], [Z.rem].
    - A Go [string] is a sequence of bytes: [string] of 8-bit [ascii].
    - [time.Local] and the clock [time.Now()] are ambient state of the
      process; functions that read them take them as arguments. *)

From Stdlib Require Import ZArith Lia List Bool String Ascii.
Import ListNotations.
Local Open Scope Z_scope.

(** ** Fixed-width integers *)

Definition wrap_u64 (x : Z) : Z := x mod 18446744073709551616.

Definition wrap_i64 (x : Z) : Z :=
  (x + 9223372036854775808) mod 18446744073709551616 - 9223372036854775808.

(** ** Package time (the part used by ymdflag)

    The calendar arithmetic is that of [src/time/time.go]: an absolute
    count of seconds from January 1 of [absoluteZeroYear], split into
    400-, 100-, 4- and 1-year cycles. *)

Module time.

Definition secondsPerMinute : Z := 60.
Definition secondsPerHour : Z := 60 * secondsPerMinute.
Definition secondsPerDay : Z := 24 * secondsPerHour.
Definition daysPer400Years : Z := 365 * 400 + 97.
Definition daysPer100Years : Z := 365 * 100 + 24.
Definition daysPer4Years : Z := 365 * 4 + 1.

Definition absoluteZeroYear : Z := -292277022399.
Definition internalYear : Z := 1.
(* (absoluteZeroYear - internalYear) * 365.2425 * secondsPerDay *)
Definition absoluteToInternal : Z := -9223371966579724800.
Definition internalToAbsolute : Z := - absoluteToInternal.
Definition unixToInternal : Z :=
  (1969 * 365 + 1969 / 4 - 1969 / 100 + 1969 / 400) * secondsPerDay.
Definition internalToUnix : Z := - unixToInternal.

(** [daysBefore[m]] counts the days in a non-leap year before month [m+1]. *)
Definition daysBefore : list Z :=
  [0; 31; 59; 90; 120; 151; 181; 212; 243; 273; 304; 334; 365].

Definition isLeap (year : Z) : bool :=
  (Z.rem year 4 =? 0) && (negb (Z.rem year 100 =? 0) || (Z.rem year 400 =? 0)).

(** [norm hi lo base] brings [lo] into [0, base), carrying into [hi]. *)
Definition norm (hi lo base : Z) : Z * Z :=
  let '(hi, lo) :=
    if lo <? 0
    then let n := Z.quot (- lo - 1) base + 1 in (hi - n, lo + n * base)
    else (hi, lo) in
  if lo >=? base
  then let n := Z.quot lo base in (hi + n, lo - n * base)
  else (hi, lo).

(** Days from the absolute epoch to January 1 of [year] (uint64). *)
Definition daysSinceEpoch (year : Z) : Z :=
  let y := wrap_u64 (year - absoluteZeroYear) in
  (* 400-year cycles *)
  let n := y / 400 in
  let y := y - 400 * n in
  let d := wrap_u64 (daysPer400Years * n) in
  (* 100-year cycles *)
  let n := y / 100 in
  let y := y - 100 * n in
  let d := wrap_u64 (d + daysPer100Years * n) in
  (* 4-year cycles *)
  let n := y / 4 in
  let y := y - 4 * n in
  let d := wrap_u64 (d + daysPer4Years * n) in
  (* remaining non-leap years *)
  let n := y in
  wrap_u64 (d + 365 * n).

(** *** Locations

    A [Location] is its table of zone transitions.  Of a zone only the
    offset (seconds east of UTC) matters to [Date], [Year], [Month] and
    [Day], so a transition records the instant (Unix seconds) and the offset
    in force from then on; [first_offset] is the offset before the first
    transition.  The table is sorted by [when], rules that extend it into
    the future being written out as further transitions. *)

Record zoneTrans : Set := mkTrans { when : Z; offset : Z }.

Record Location : Set := mkLocation { first_offset : Z; tx : list zoneTrans }.

Definition UTC : Location := mkLocation 0 [].

Definition FixedZone (off : Z) : Location := mkLocation off [].

Definition alpha : Z := - 9223372036854775808.
Definition omega : Z := 9223372036854775807.

(** What [lookup] returns: the offset in force and the span
    [[zstart, zend)] of Unix seconds over which it is. *)
Record zoneSpan : Set := mkSpan { zoffset : Z; zstart : Z; zend : Z }.

(** The entry with the largest [when <= sec], [cur] being the best so far. *)
Fixpoint lookup_from (cur : zoneTrans) (rest : list zoneTrans) (sec : Z)
  : zoneSpan :=
  match rest with
  | [] => mkSpan (offset cur) (when cur) omega
  | nxt :: rest' =>
      if sec <? when nxt
      then mkSpan (offset cur) (when cur) (when nxt)
      else lookup_from nxt rest' sec
  end.

Definition lookup (l : Location) (sec : Z) : zoneSpan :=
  match tx l with
  | [] => mkSpan (first_offset l) alpha omega
  | t0 :: rest =>
      if sec <? when t0
      then mkSpan (first_offset l) alpha (when t0)
      else lookup_from t0 rest sec
  end.

(** *** Time

    [ext] is the count of seconds since January 1, year 1 00:00:00 UTC,
    [nsec] the nanoseconds within the second; the monotonic clock reading
    plays no role here. *)

Record Time : Set := mkTime { nsec : Z; ext : Z; loc : Location }.

(** The zero value [time.Time{}]. *)
Definition zeroTime : Time := mkTime 0 0 UTC.

Definition IsZero (t : Time) : bool := (ext t =? 0) && (nsec t =? 0).

Definition unixSec (t : Time) : Z := wrap_i64 (ext t + internalToUnix).

Definition unixTime (sec nsec : Z) (l : Location) : Time :=
  mkTime nsec (wrap_i64 (sec + unixToInternal)) l.

(** [t.In(loc)]: the same instant, read in another location. *)
Definition In (t : Time) (l : Location) : Time := mkTime (nsec t) (ext t) l.

(** Seconds since the absolute epoch of the civil time [y-m-d h:mi:s] read
    as if in UTC, after normalising months, then seconds, minutes and hours
    into days. *)
Definition civilAbs (year month day hour min sec nsec : Z) : Z * Z :=
  let m := month - 1 in
  let '(year, m) := norm year m 12 in
  let month := m + 1 in
  let '(sec, nsec) := norm sec nsec 1000000000 in
  let '(min, sec) := norm min sec 60 in
  let '(hour, min) := norm hour min 60 in
  let '(day, hour) := norm day hour 24 in
  let d := daysSinceEpoch year in
  let d := wrap_u64 (d + nth (Z.to_nat (month - 1)) daysBefore 0) in
  let d := if isLeap year && (3 <=? month) then wrap_u64 (d + 1) else d in
  let d := wrap_u64 (d + wrap_u64 (day - 1)) in
  let abs := wrap_u64 (d * secondsPerDay) in
  let abs :=
    wrap_u64 (abs + wrap_u64 (hour * secondsPerHour
                              + min * secondsPerMinute + sec)) in
  (abs, nsec).

(** The zone offset [Date] subtracts from the as-if-UTC reading [unix]: the
    offset in force at [unix], or, when [unix - offset] falls outside that
    zone's span, the offset in force at [unix - offset].  Where a zone
    transition skips or repeats the civil time asked for, [Date] is
    documented to return a time that is correct in one of the two zones of
    the transition, without promising which. *)
Definition dateOffset (l : Location) (unix : Z) : Z :=
  let z := lookup l unix in
  if zoffset z =? 0 then 0
  else
    let utc := wrap_i64 (unix - zoffset z) in
    if (utc <? zstart z) || (utc >=? zend z)
    then zoffset (lookup l utc)
    else zoffset z.

Definition Date (year month day hour min sec nsec : Z) (l : Location) : Time :=
  let '(abs, nsec) := civilAbs year month day hour min sec nsec in
  let unix := wrap_i64 (wrap_i64 abs + (absoluteToInternal + internalToUnix)) in
  let unix := wrap_i64 (unix - dateOffset l unix) in
  unixTime unix nsec l.

(** [t.abs()]: seconds since the absolute epoch of [t] read in its
    location. *)
Definition abs (t : Time) : Z :=
  let sec := unixSec t in
  let sec := wrap_i64 (sec + zoffset (lookup (loc t) sec)) in
  wrap_u64 (sec + (unixToInternal + internalToAbsolute)).

(** First half of [absDate]: the year and the zero-based day of the year. *)
Definition absYear (abs : Z) : Z * Z :=
  let d := abs / secondsPerDay in
  (* 400-year cycles *)
  let n := d / daysPer400Years in
  let y := 400 * n in
  let d := d - daysPer400Years * n in
  (* 100-year cycles; the last has one more leap year *)
  let n := d / daysPer100Years in
  let n := n - Z.shiftr n 2 in
  let y := y + 100 * n in
  let d := d - daysPer100Years * n in
  (* 4-year cycles *)
  let n := d / daysPer4Years in
  let y := y + 4 * n in
  let d := d - daysPer4Years * n in
  (* years within the cycle; the last is the leap year *)
  let n := d / 365 in
  let n := n - Z.shiftr n 2 in
  let y := y + n in
  let d := d - 365 * n in
  (wrap_i64 (wrap_i64 y + absoluteZeroYear), d).

(** Second half of [absDate]: month and day of the month from the day of
    the year, [leap] being [isLeap(year)]. *)
Definition yearDay (leap : bool) (yday : Z) : Z * Z :=
  if leap && (yday =? 31 + 29 - 1) then (2, 29)
  else
    let day := if leap && (yday >? 31 + 29 - 1) then yday - 1 else yday in
    let month := Z.quot day 31 in
    let end_ := nth (Z.to_nat (month + 1)) daysBefore 0 in
    let '(month, begin) :=
      if day >=? end_ then (month + 1, end_)
      else (month, nth (Z.to_nat month) daysBefore 0) in
    (month + 1, day - begin + 1).

Definition absDate (abs : Z) : Z * Z * Z :=
  let '(year, yday) := absYear abs in
  let '(month, day) := yearDay (isLeap year) yday in
  (year, month, day).

Definition Year (t : Time) : Z := fst (absYear (abs t)).
Definition Month (t : Time) : Z := snd (fst (absDate (abs t))).
Definition Day (t : Time) : Z := snd (absDate (abs t)).

(** [t.Clock()]: hour, minute and second within the day. *)
Definition Clock (t : Time) : Z * Z * Z :=
  let sec := abs t mod secondsPerDay in
  let hour := sec / secondsPerHour in
  let sec := sec - hour * secondsPerHour in
  let min := sec / secondsPerMinute in
  (hour, min, sec - min * secondsPerMinute).

End time.

(** ** Strings as byte sequences *)

Definition byte_of (c : ascii) : Z := Z.of_N (N_of_ascii c).

Definition char_of (b : Z) : ascii := ascii_of_N (Z.to_N (b mod 256)).

Definition bytes (s : string) : list Z := map byte_of (list_ascii_of_string s).

Definition of_bytes (l : list Z) : string :=
  string_of_list_ascii (map char_of l).

Fixpoint repeat_char (c : ascii) (n : nat) : string :=
  match n with
  | O => EmptyString
  | S n' => String c (repeat_char c n')
  end.

(** ** Package unicode/utf8 and the decoding done by [range] over a string *)

Module utf8.

Definition RuneError : Z := 65533.   (* U+FFFD *)
Definition RuneSelf : Z := 128.
Definition MaxRune : Z := 1114111.   (* U+10FFFF *)
Definition surrogateMin : Z := 55296.
Definition surrogateMax : Z := 57343.
Definition rune1Max : Z := 127.
Definition rune2Max : Z := 2047.
Definition rune3Max : Z := 65535.

Definition t2 : Z := 192.
Definition t3 : Z := 224.
Definition t4 : Z := 240.
Definition t5 : Z := 248.
Definition tx : Z := 128.
Definition maskx : Z := 63.
Definition mask2 : Z := 31.
Definition mask3 : Z := 15.
Definition mask4 : Z := 7.
Definition locb : Z := 128.
Definition hicb : Z := 191.

Definition cont (b : Z) : bool := (locb <=? b) && (b <=? hicb).

(** [decoderune]: the rune at the head of [s] (whose first byte is not
    below [RuneSelf]) and its width in bytes; an ill-formed sequence gives
    [RuneError] and width 1. *)
Definition decoderune (s : list Z) : Z * nat :=
  match s with
  | [] => (RuneError, 1%nat)
  | s0 :: rest =>
      if (t2 <=? s0) && (s0 <? t3) then
        match rest with
        | s1 :: _ =>
            let r := Z.lor (Z.shiftl (Z.land s0 mask2) 6) (Z.land s1 maskx) in
            if cont s1 && (rune1Max <? r) then (r, 2%nat)
            else (RuneError, 1%nat)
        | _ => (RuneError, 1%nat)
        end
      else if (t3 <=? s0) && (s0 <? t4) then
        match rest with
        | s1 :: s2 :: _ =>
            let r := Z.lor (Z.lor (Z.shiftl (Z.land s0 mask3) 12)
                                  (Z.shiftl (Z.land s1 maskx) 6))
                           (Z.land s2 maskx) in
            if cont s1 && cont s2 && (rune2Max <? r)
               && negb ((surrogateMin <=? r) && (r <=? surrogateMax))
            then (r, 3%nat)
            else (RuneError, 1%nat)
        | _ => (RuneError, 1%nat)
        end
      else if (t4 <=? s0) && (s0 <? t5) then
        match rest with
        | s1 :: s2 :: s3 :: _ =>
            let r := Z.lor (Z.lor (Z.lor (Z.shiftl (Z.land s0 mask4) 18)
                                         (Z.shiftl (Z.land s1 maskx) 12))
                                  (Z.shiftl (Z.land s2 maskx) 6))
                           (Z.land s3 maskx) in
            if cont s1 && cont s2 && cont s3
               && (rune3Max <? r) && (r <=? MaxRune)
            then (r, 4%nat)
            else (RuneError, 1%nat)
        | _ => (RuneError, 1%nat)
        end
      else (RuneError, 1%nat)
  end.

(** The runes [for _, c := range s] yields, in order.  Each step consumes
    at least one byte, so [length s] steps are enough. *)
Fixpoint range_fuel (fuel : nat) (s : list Z) : list Z :=
  match fuel with
  | O => []
  | S fuel' =>
      match s with
      | [] => []
      | b :: rest =>
          if b <? RuneSelf then b :: range_fuel fuel' rest
          else let '(r, w) := decoderune s in
               r :: range_fuel fuel' (skipn w s)
      end
  end.

Definition range (s : string) : list Z :=
  range_fuel (String.length s) (bytes s).

(** [AppendRune]: the UTF-8 encoding of [r] (an int32). *)
Definition AppendRune (r : Z) : list Z :=
  let i := r mod 4294967296 in   (* uint32(r) *)
  if i <=? rune1Max then [r mod 256]
  else if i <=? rune2Max then
    [Z.lor t2 (Z.shiftr r 6 mod 256); Z.lor tx (Z.land (r mod 256) maskx)]
  else
    let three (r : Z) :=
      [Z.lor t3 (Z.shiftr r 12 mod 256);
       Z.lor tx (Z.land (Z.shiftr r 6 mod 256) maskx);
       Z.lor tx (Z.land (r mod 256) maskx)] in
    if (i >? MaxRune) || ((surrogateMin <=? i) && (i <=? surrogateMax))
    then three RuneError
    else if i <=? rune3Max then three r
    else
      [Z.lor t4 (Z.shiftr r 18 mod 256);
       Z.lor tx (Z.land (Z.shiftr r 12 mod 256) maskx);
       Z.lor tx (Z.land (Z.shiftr r 6 mod 256) maskx);
       Z.lor tx (Z.land (r mod 256) maskx)].

End utf8.

(** ** Package unicode *)

Module unicode.

Definition MaxLatin1 : Z := 255.

Section IsDigit.
(** Membership in the range table [unicode.Digit] (category Nd) for runes
    above Latin-1; the table itself is data of the Unicode version. *)
Variable isExcludingLatin_Digit : Z -> bool.

Definition IsDigit (r : Z) : bool :=
  if r <=? MaxLatin1 then (48 <=? r) && (r <=? 57)
  else isExcludingLatin_Digit r.
End IsDigit.

End unicode.

(** ** Package strconv *)

Module strconv.

Inductive NumError : Set := ErrSyntax | ErrRange.

Definition maxUint64 : Z := 18446744073709551615.

(** The digit loop of [ParseUint] in base 10 with [bitSize] 64. *)
Fixpoint parseUint_loop (s : list Z) (n : Z) : Z * option NumError :=
  match s with
  | [] => (n, None)
  | c :: rest =>
      if (48 <=? c) && (c <=? 57) then
        let d := c - 48 in
        if n >=? maxUint64 / 10 + 1 then (maxUint64, Some ErrRange)
        else
          let n := wrap_u64 (n * 10) in
          let n1 := wrap_u64 (n + d) in
          if (n1 <? n) || (n1 >? maxUint64) then (maxUint64, Some ErrRange)
          else parseUint_loop rest n1
      else if (97 <=? Z.lor c 32) && (Z.lor c 32 <=? 122) then
        (* a letter: a digit of value 10 or more, not below the base *)
        (0, Some ErrSyntax)
      else (0, Some ErrSyntax)
  end.

Definition ParseUint10 (s : list Z) : Z * option NumError :=
  match s with
  | [] => (0, Some ErrSyntax)
  | _ => parseUint_loop s 0
  end.

(** [ParseInt(s, 10, 0)]. *)
Definition ParseInt10 (s : list Z) : Z * option NumError :=
  match s with
  | [] => (0, Some ErrSyntax)
  | s0 :: rest =>
      let neg := s0 =? 45 in
      let s' := if (s0 =? 43) || (s0 =? 45) then rest else s in
      let '(un, err) := ParseUint10 s' in
      match err with
      | Some ErrSyntax => (0, err)
      | _ =>
          let cutoff := 9223372036854775808 in
          if negb neg && (un >=? cutoff) then (cutoff - 1, Some ErrRange)
          else if neg && (un >? cutoff) then (- cutoff, Some ErrRange)
          else
            let n := wrap_i64 un in
            (if neg then wrap_i64 (- n) else n, None)
      end
  end.

(** The loop of the fast path of [Atoi]: [ch -= '0'] is byte arithmetic. *)
Fixpoint atoi_loop (s : list Z) (n : Z) : option Z :=
  match s with
  | [] => Some n
  | ch :: rest =>
      let ch := (ch - 48) mod 256 in
      if ch >? 9 then None
      else atoi_loop rest (n * 10 + ch)
  end.

Definition Atoi (str : string) : Z * option NumError :=
  let s := bytes str in
  let sLen := Z.of_nat (String.length str) in
  if (0 <? sLen) && (sLen <? 19) then
    (* fast path for small integers that fit the int type *)
    match s with
    | [] => (0, Some ErrSyntax)
    | s0 :: rest =>
        let signed := (s0 =? 45) || (s0 =? 43) in
        let s' := if signed then rest else s in
        if signed && (Z.of_nat (List.length s') <? 1) then (0, Some ErrSyntax)
        else
          match atoi_loop s' 0 with
          | None => (0, Some ErrSyntax)
          | Some n => (if s0 =? 45 then - n else n, None)
          end
    end
  else
    (* slow path for invalid or big integers *)
    ParseInt10 s.

Definition digit_char (d : Z) : ascii := char_of (48 + d).

(** The base-10 loop of [formatBits]: two digits at a time while
    [us >= 100], the leading one or two digits being written after the
    loop.  A uint64 has at most 20 digits. *)
Fixpoint formatBits_loop (fuel : nat) (us : Z) (a : string) : Z * string :=
  match fuel with
  | O => (us, a)
  | S fuel' =>
      if us >=? 100 then
        let is_ := us mod 100 in
        formatBits_loop fuel' (us / 100)
          (String (digit_char (is_ / 10)) (String (digit_char (is_ mod 10)) a))
      else (us, a)
  end.

Definition formatBits (u : Z) (neg : bool) : string :=
  let u := if neg then wrap_u64 (- u) else u in
  let '(us, a) := formatBits_loop 10 u EmptyString in
  let a := String (digit_char (us mod 10)) a in
  let a := if us >=? 10 then String (digit_char (us / 10)) a else a in
  if neg then String "-"%char a else a.

(** [small]: the strings of the integers below 100. *)
Definition small (i : Z) : string :=
  if i <? 10 then String (digit_char i) EmptyString
  else String (digit_char (i / 10)) (String (digit_char (i mod 10)) EmptyString).

(** [Itoa(i)] is [FormatInt(int64(i), 10)]. *)
Definition Itoa (i : Z) : string :=
  if (0 <=? i) && (i <? 100) then small i
  else formatBits (wrap_u64 i) (i <? 0).

End strconv.

(** ** Package fmt: the verbs of ["%04d%c%02d%c%02d"] *)

Module fmt.

(** Decimal digits of [u], most significant first, before [acc]. *)
Fixpoint fmtInteger_loop (fuel : nat) (u : Z) (acc : string) : Z * string :=
  match fuel with
  | O => (u, acc)
  | S fuel' =>
      if u >=? 10 then
        let next := u / 10 in
        fmtInteger_loop fuel' next (String (strconv.digit_char (u - next * 10)) acc)
      else (u, acc)
  end.

(** [pad]: left padding with spaces up to the width. *)
Definition pad (wid : Z) (b : string) : string :=
  (repeat_char " "%char (Z.to_nat (wid - Z.of_nat (String.length b))) ++ b)%string.

(** [fmtInteger] for a signed argument under [%0<wid>d]: zero padding is
    handled as a precision of [wid], one less when a sign is written. *)
Definition fmt0d (wid : Z) (v : Z) : string :=
  let negative := v <? 0 in
  let u := if negative then wrap_u64 (- v) else wrap_u64 v in
  let prec := if negative then wid - 1 else wid in
  let '(u, buf) := fmtInteger_loop 20 u EmptyString in
  let buf := String (strconv.digit_char u) buf in
  let buf :=
    (repeat_char "0"%char (Z.to_nat (prec - Z.of_nat (String.length buf))) ++ buf)%string in
  let buf := if negative then String "-"%char buf else buf in
  pad wid buf.

(** [fmtC] for a rune argument (an int32 widened to uint64). *)
Definition fmtC (c : Z) : string :=
  let r := if (c <? 0) || (c >? utf8.MaxRune) then utf8.RuneError else c in
  of_bytes (utf8.AppendRune r).

End fmt.

(** ** Package ymdflag *)

Module ymdflag.

Import time.

(** [YMDFlag] stores an integral [yyyymmdd]; 0 means indeterminate. *)
Record YMDFlag : Set := mkYMDFlag { yyyymmdd : Z }.

(** The errors the package makes with [fmt.Errorf]; [%w] wraps. *)
Inductive error : Set :=
| ErrFormat                               (* expect string of format YYYYMMDD *)
| ErrConvert (e : strconv.NumError)       (* failed to convert string %w *)
| ErrValidateString (e : error)           (* failed to validate string %w *)
| ErrNegative                             (* yyyymmdd is negative *)
| ErrMoreThan8Digits                      (* yyyymmdd is more than 8 digits *)
| ErrBadOrUnnormalized.                   (* yyyymmdd is bad or unnormalized *)

(** Methods with a pointer receiver run on the flag they may change. *)
Definition M (A : Type) : Type := YMDFlag -> A * YMDFlag.

Definition ret {A : Type} (a : A) : M A := fun ymd => (a, ymd).

Definition bind {A B : Type} (m : M A) (k : A -> M B) : M B :=
  fun ymd => let '(a, ymd') := m ymd in k a ymd'.

Definition get : M YMDFlag := fun ymd => (ymd, ymd).

Definition put (ymd' : YMDFlag) : M unit := fun _ => (tt, ymd').

Notation "x <- m ;; k" := (bind m (fun x => k))
  (at level 61, m at next level, right associativity).
Notation "m ;;; k" := (bind m (fun _ => k))
  (at level 61, right associativity).

Definition TimeToYMD (t : Time) : Z :=
  if IsZero t then 0
  else wrap_i64 (10000 * Year t + 100 * Month t + Day t).

(** [isInt]: every rune of the string is a Unicode digit. *)
Definition isInt (Digit : Z -> bool) (value : string) : bool :=
  forallb (unicode.IsDigit Digit) (utf8.range value).

Definition GetYMD (ymd : YMDFlag) : Z := yyyymmdd ymd.

Definition IsZero (ymd : YMDFlag) : bool := yyyymmdd ymd =? 0.

Definition AsYMD (ymd : YMDFlag) : Z := yyyymmdd ymd.

Definition AsYMDString (ymd : YMDFlag) : string :=
  if yyyymmdd ymd =? 0 then EmptyString
  else strconv.Itoa (yyyymmdd ymd).

Definition AsYearMonthDay (ymd : YMDFlag) : Z * Z * Z :=
  if IsZero ymd then (0, 0, 0)
  else
    let year := Z.quot (yyyymmdd ymd) 10000 in
    let month := Z.quot (Z.rem (yyyymmdd ymd) 10000) 100 in
    let day := Z.rem (yyyymmdd ymd) 100 in
    (year, month, day).

Definition FormatDirPath (ymd : YMDFlag) (separator : Z) : string :=
  if IsZero ymd then EmptyString
  else
    let '(year, month, day) := AsYearMonthDay ymd in
    (fmt.fmt0d 4 year ++ fmt.fmtC separator ++ fmt.fmt0d 2 month
       ++ fmt.fmtC separator ++ fmt.fmt0d 2 day)%string.

Definition NewYMDFlag (t : Time) : YMDFlag := mkYMDFlag (TimeToYMD t).

(** [Type] returns the name of the flag type. *)
Definition Type_ : M string := ret "YMDFlag"%string.

(** [String] (written [String_], the name being taken) has a pointer
    receiver and only reads through it. *)
Definition String_ : M string :=
  ymd <- get ;; ret (AsYMDString ymd).

(** [UpdateNilToNow]; [now] is what [time.Now()] returns at the call. *)
Definition UpdateNilToNow (now : Time) (location : option Location) : M unit :=
  ymd <- get ;;
  if negb (yyyymmdd ymd =? 0) then ret tt
  else
    let now := match location with Some l => In now l | None => now end in
    put (mkYMDFlag (TimeToYMD now)).

Section Ambient.

(** [time.Local], the location of the process. *)
Variable Local : Location.

(** The table [unicode.Digit] above Latin-1. *)
Variable Digit : Z -> bool.

Definition YMDToTime (yyyymmdd : Z) (loc : option Location) : Time :=
  if yyyymmdd =? 0 then zeroTime
  else
    let year := Z.quot yyyymmdd 10000 in
    let month := Z.quot (Z.rem yyyymmdd 10000) 100 in
    let day := Z.rem yyyymmdd 100 in
    let loc := match loc with None => Local | Some l => l end in
    Date year month day 0 0 0 0 loc.

Definition ValidateYMD (yyyymmdd : Z) : option error :=
  if yyyymmdd =? 0 then None
  else if yyyymmdd <? 0 then Some ErrNegative
  else if yyyymmdd >? 99999999 then Some ErrMoreThan8Digits
  else
    let year := Z.quot yyyymmdd 10000 in
    let month := Z.quot (Z.rem yyyymmdd 10000) 100 in
    let day := Z.rem yyyymmdd 100 in
    let dt := Date year month day 0 0 0 0 Local in
    if negb (year =? Year dt) || negb (month =? Month dt)
       || negb (day =? Day dt)
    then Some ErrBadOrUnnormalized
    else None.

Definition StringToYMD (str : string) : Z * option error :=
  if String.eqb str EmptyString then (0, None)
  else if negb (Nat.eqb (String.length str) 8) || negb (isInt Digit str)
  then (0, Some ErrFormat)
  else
    let '(yyyymmdd, err) := strconv.Atoi str in
    match err with
    | Some e => (0, Some (ErrConvert e))
    | None =>
        match ValidateYMD yyyymmdd with
        | Some e => (0, Some (ErrValidateString e))
        | None => (yyyymmdd, None)
        end
    end.

(** [Set] (written [Set_]). *)
Definition Set_ (value : string) : M (option error) :=
  let '(yyyymmdd, err) := StringToYMD value in
  match err with
  | Some e => ret (Some e)
  | None => put (mkYMDFlag yyyymmdd) ;;; ret None
  end.

Definition NewYMDFlagFromInt (i : Z) : YMDFlag * option error :=
  match ValidateYMD i with
  | Some e => (mkYMDFlag 0, Some e)
  | None => (mkYMDFlag i, None)
  end.

Definition AsTimeWithLoc (now : Time) (location : option Location) : M Time :=
  let location := match location with None => Local | Some l => l end in
  UpdateNilToNow now (Some location) ;;;
  ymd <- get ;;
  ret (YMDToTime (yyyymmdd ymd) (Some location)).

Definition AsTime (now : Time) : M Time := AsTimeWithLoc now None.

End Ambient.

End ymdflag.


(** * Specification-side definitions *)

(** The decomposition of an encoded value, in the words of the
    specification: year = n / 10000, month = (n % 10000) / 100,
    day = n % 100. *)
Definition year_of (n : Z) : Z := n / 10000.
Definition month_of (n : Z) : Z := (n mod 10000) / 100.
Definition day_of (n : Z) : Z := n mod 100.

(** The proleptic Gregorian calendar: a year is a leap year when it is
    divisible by 4 and not by 100, or divisible by 400. *)
Definition gregorian_leap (y : Z) : bool :=
  (y mod 4 =? 0) && (negb (y mod 100 =? 0) || (y mod 400 =? 0)).

Definition days_in_month (y m : Z) : Z :=
  if (m =? 1) || (m =? 3) || (m =? 5) || (m =? 7) || (m =? 8) || (m =? 10)
     || (m =? 12) then 31
  else if (m =? 4) || (m =? 6) || (m =? 9) || (m =? 11) then 30
  else if m =? 2 then (if gregorian_leap y then 29 else 28)
  else 0.

(** A real calendar date, strictly: no month 13, no day 32, no February 29
    outside leap years. *)
Definition real_date (y m d : Z) : bool :=
  (1 <=? m) && (m <=? 12) && (1 <=? d) && (d <=? days_in_month y m).

Definition valid_ymd (n : Z) : bool :=
  real_date (year_of n) (month_of n) (day_of n).

(** *** Decimal text *)

Definition is_ascii_digit (b : Z) : bool := (48 <=? b) && (b <=? 57).

Definition all_digits (s : string) : bool := forallb is_ascii_digit (bytes s).

(** Exactly 8 ASCII digit characters. *)
Definition eight_ascii_digits (s : string) : bool :=
  Nat.eqb (String.length s) 8 && all_digits s.

(** The integer a string of digits denotes. *)
Definition decimal_of (bs : list Z) (acc : Z) : Z :=
  fold_left (fun acc b => 10 * acc + (b - 48)) bs acc.

Definition decimal_value (s : string) : Z := decimal_of (bytes s) 0.

(** [s] is [n] (not negative) in decimal, zero-padded on the left to [w]
    digits: digits only, denoting [n], [w] of them, or more when [n] needs
    more, and then without a leading zero. *)
Definition padded_digits (w : Z) (n : Z) (s : string) : Prop :=
  all_digits s = true /\ decimal_value s = n
  /\ (Z.of_nat (String.length s) = w
      \/ (w < Z.of_nat (String.length s) /\ hd 0 (bytes s) <> 48)).

(** The same for any integer: a negative one has its sign first, which
    takes one of the [w] places. *)
Definition zero_padded (w : Z) (n : Z) (s : string) : Prop :=
  if n <? 0
  then exists s', s = String "-"%char s' /\ padded_digits (w - 1) (- n) s'
  else padded_digits w n s.

(** *** Reading a [Time] *)

(** The reading [t.abs()] would give if the zone offset in force were
    [off]. *)
Definition absWith (t : time.Time) (off : Z) : Z :=
  wrap_u64 (wrap_i64 (time.unixSec t + off)
            + (time.unixToInternal + time.internalToAbsolute)).

(** Unix seconds of midnight of [year]-[month]-[day] read as if in UTC:
    what [Date] computes before it looks for the zone. *)
Definition dateUnix (year month day : Z) : Z :=
  wrap_i64 (wrap_i64 (fst (time.civilAbs year month day 0 0 0 0))
            + (time.absoluteToInternal + time.internalToUnix)).

(** Midnight of the date exists in [l] as [Date] built it: the offset
    [Date] subtracted is the one in force at the instant it returned.  It
    fails when a zone transition skips that midnight. *)
Definition offsetInForce (l : time.Location) (year month day : Z) : bool :=
  time.zoffset (time.lookup l (time.unixSec (time.Date year month day 0 0 0 0 l)))
  =? time.dateOffset l (dateUnix year month day).

(** The location [YMDToTime] builds the time in: [time.Local] for nil. *)
Definition resolve (Local : time.Location) (loc : option time.Location)
  : time.Location :=
  match loc with None => Local | Some l => l end.

(** A location whose clocks go from 00:00 to 01:00 on 2024-03-10, as those
    of America/Havana do (UTC-5 until 2024-03-10 05:00:00 UTC, Unix second
    1710046800, then UTC-4). *)
Definition Havana : time.Location :=
  time.mkLocation (- 18000) [time.mkTrans 1710046800 (- 14400)].

(** Havana with the two transitions that follow: back to UTC-5 on
    2024-11-03 05:00:00 UTC (01:00 to 00:00, so that midnight comes
    twice), and from 00:00 to 01:00 again on 2025-03-09. *)
Definition HavanaRules : time.Location :=
  time.mkLocation (- 18000)
    [time.mkTrans 1710046800 (- 14400); time.mkTrans 1730610000 (- 18000);
     time.mkTrans 1741496400 (- 14400)].

(** A location east of UTC whose clocks go from 00:00 to 01:00 on
    2023-04-28, as those of Africa/Cairo do (UTC+2 until 2023-04-27
    22:00:00 UTC, Unix second 1682632800, then UTC+3). *)
Definition Cairo : time.Location :=
  time.mkLocation 7200 [time.mkTrans 1682632800 10800].

(** What [t] shows in its location: year, month, day and clock. *)
Definition civil (t : time.Time) : Z * Z * Z * (Z * Z * Z) :=
  (time.Year t, time.Month t, time.Day t, time.Clock t).

(** The stored value lies in the range of the data model. *)
Definition in_range (ymd : ymdflag.YMDFlag) : Prop :=
  0 <= ymdflag.yyyymmdd ymd <= 99999999.

(** The flag is unset or holds an 8-digit value that decodes to a real
    calendar date. *)
Definition holds_real_date (ymd : ymdflag.YMDFlag) : Prop :=
  ymdflag.yyyymmdd ymd = 0
  \/ (1 <= ymdflag.yyyymmdd ymd <= 99999999
      /\ valid_ymd (ymdflag.yyyymmdd ymd) = true).

(** The encoding of [t] fits 8 digits: [t] is the zero Time, encoded as 0,
    or its year is one of 0 to 9999. *)
Definition year_fits (t : time.Time) : Prop :=
  time.IsZero t = true \/ 0 <= time.Year t <= 9999.

(** The clock reading [UpdateNilToNow] encodes: [now] moved to [location]
    unless that is nil. *)
Definition clockIn (now : time.Time) (location : option time.Location)
  : time.Time :=
  match location with Some l => time.In now l | None => now end.

(** [off] is an offset of one of the zones of [l]. *)
Definition zoneOffsetOf (l : time.Location) (off : Z) : Prop :=
  exists sec, off = time.zoffset (time.lookup l sec).

(** Zero-based day of the year of day [d] of month [m]. *)
Definition ydayOf (leap : bool) (m d : Z) : Z :=
  nth (Z.to_nat (m - 1)) time.daysBefore 0
  + (if leap && (3 <=? m) then 1 else 0) + d - 1.

(** [daysIn]: the length of month [m]. *)
Definition daysIn (leap : bool) (m : Z) : Z :=
  if (m =? 2) && leap then 29
  else nth (Z.to_nat m) time.daysBefore 0
       - nth (Z.to_nat (m - 1)) time.daysBefore 0.

Definition yearLen (leap : bool) : Z := if leap then 366 else 365.

Definition zrange (lo : Z) (n : nat) : list Z :=
  map (fun i => lo + Z.of_nat i) (seq 0 n).

Definition pair_eqb (p q : Z * Z) : bool :=
  (fst p =? fst q) && (snd p =? snd q).

(** Tables checked by evaluation: [yearDay] inverts [ydayOf] on the days of
    each month, and lands on a day of a month from any day of the year. *)
Definition yearDay_inverts_ydayOf : bool :=
  forallb (fun leap =>
    forallb (fun m =>
      forallb (fun d =>
        implb (d <=? daysIn leap m)
              (pair_eqb (time.yearDay leap (ydayOf leap m d)) (m, d)))
        (zrange 1 31))
      (zrange 1 12))
    [true; false].

Definition yearDay_lands : bool :=
  forallb (fun leap =>
    forallb (fun yd =>
      implb (yd <? yearLen leap)
        (let '(m, d) := time.yearDay leap yd in
         (1 <=? m) && (m <=? 12) && (1 <=? d) && (d <=? daysIn leap m)
         && (ydayOf leap m d =? yd)))
      (zrange 0 366))
    [true; false].

(** Evaluates the closed entries of the calendar tables in the goal. *)
Ltac close_tables :=
  repeat match goal with
  | |- context [daysIn ?l ?m] =>
      let v := eval vm_compute in (daysIn l m) in change (daysIn l m) with v
  | |- context [yearLen ?l] =>
      let v := eval vm_compute in (yearLen l) in change (yearLen l) with v
  | |- context [nth ?k time.daysBefore 0] =>
      let v := eval vm_compute in (nth k time.daysBefore 0) in
      change (nth k time.daysBefore 0) with v
  | |- context [if ?c then 1 else 0] =>
      let v := eval vm_compute in c in change c with v; cbv iota
  end.

(** * Facts about package time *)

Lemma wrap_u64_small x : 0 <= x < 18446744073709551616 -> wrap_u64 x = x.
Proof. intros H. unfold wrap_u64. apply Z.mod_small. exact H. Qed.

Lemma wrap_i64_small x :
  - 9223372036854775808 <= x < 9223372036854775808 -> wrap_i64 x = x.
Proof. intros H. unfold wrap_i64. rewrite Z.mod_small; lia. Qed.

Lemma wrap_u64_range x : 0 <= wrap_u64 x < 18446744073709551616.
Proof. unfold wrap_u64. apply Z.mod_pos_bound. lia. Qed.

Lemma wrap_i64_range x :
  - 9223372036854775808 <= wrap_i64 x < 9223372036854775808.
Proof.
  unfold wrap_i64.
  pose proof (Z.mod_pos_bound (x + 9223372036854775808) 18446744073709551616).
  lia.
Qed.

Lemma zrange_In lo n x :
  lo <= x < lo + Z.of_nat n -> List.In x (zrange lo n).
Proof.
  intros H. unfold zrange. apply in_map_iff.
  exists (Z.to_nat (x - lo)). split; [lia|].
  apply in_seq. lia.
Qed.

Lemma isLeap_mod year : time.isLeap year = gregorian_leap year.
Proof.
  unfold time.isLeap, gregorian_leap.
  assert (R : forall k, 0 < k -> (Z.rem year k =? 0) = (year mod k =? 0)).
  { intros k Hk.
    destruct (Z.eqb_spec (Z.rem year k) 0) as [E|E];
      destruct (Z.eqb_spec (year mod k) 0) as [F|F]; try reflexivity; exfalso.
    - apply F. apply Z.rem_divide in E; [|lia].
      apply Z.mod_divide; [lia|exact E].
    - apply E. apply Z.mod_divide in F; [|lia].
      apply Z.rem_divide; [lia|exact F]. }
  rewrite !R by lia. reflexivity.
Qed.

Lemma shiftr_2 n : Z.shiftr n 2 = n / 4.
Proof. rewrite Z.shiftr_div_pow2 by lia. reflexivity. Qed.

(** [absYear] with its cycle counts named. *)
Lemma absYear_split a :
  0 <= a ->
  exists n1 n2 n3 n4 yd,
    time.absYear a
    = (wrap_i64 (wrap_i64 (400 * n1 + 100 * n2 + 4 * n3 + n4)
                 + time.absoluteZeroYear), yd)
    /\ a / 86400 = 146097 * n1 + 36524 * n2 + 1461 * n3 + 365 * n4 + yd
    /\ 0 <= n1 /\ 0 <= n2 <= 3 /\ 0 <= n3 <= 24 /\ 0 <= n4 <= 3
    /\ 0 <= yd
    /\ (yd < 365 \/ (yd = 365 /\ n4 = 3 /\ (n3 < 24 \/ n2 = 3))).
Proof.
  intros Ha. unfold time.absYear. cbv zeta. rewrite !shiftr_2.
  change time.secondsPerDay with 86400.
  change time.daysPer400Years with 146097.
  change time.daysPer100Years with 36524.
  change time.daysPer4Years with 1461.
  set (d := a / 86400).
  set (n1 := d / 146097).
  set (d1 := d - 146097 * n1).
  set (m2 := d1 / 36524).
  set (n2 := m2 - m2 / 4).
  set (d2 := d1 - 36524 * n2).
  set (n3 := d2 / 1461).
  set (d3 := d2 - 1461 * n3).
  set (m4 := d3 / 365).
  set (n4 := m4 - m4 / 4).
  exists n1, n2, n3, n4, (d3 - 365 * n4).
  assert (Hd : 0 <= d) by (apply Z.div_pos; lia).
  assert (H1 : 0 <= n1 /\ 0 <= d1 < 146097)
    by (subst d1 n1; Z.div_mod_to_equations; lia).
  assert (H2 : 0 <= n2 <= 3 /\ 0 <= d2 <= 36524 /\ (d2 = 36524 -> n2 = 3))
    by (subst d2 n2 m2; Z.div_mod_to_equations; lia).
  assert (H3 : 0 <= n3 <= 24 /\ 0 <= d3 <= 1460
               /\ (n3 = 24 -> n2 < 3 -> d3 < 1460))
    by (subst d3 n3; Z.div_mod_to_equations; lia).
  assert (H4 : 0 <= n4 <= 3 /\ 0 <= d3 - 365 * n4 <= 365
               /\ (d3 - 365 * n4 = 365 -> n4 = 3 /\ d3 = 1460))
    by (subst n4 m4; Z.div_mod_to_equations; lia).
  split; [reflexivity|].
  split; [subst d3 d2 d1; lia|].
  lia.
Qed.

Lemma isLeap_digits n1 n2 n3 n4 :
  0 <= n2 <= 3 -> 0 <= n3 <= 24 -> 0 <= n4 <= 3 ->
  time.isLeap (400 * n1 + 100 * n2 + 4 * n3 + n4 + time.absoluteZeroYear)
  = (n4 =? 3) && ((n3 <? 24) || (n2 =? 3)).
Proof.
  intros H2 H3 H4. rewrite isLeap_mod.
  unfold gregorian_leap, time.absoluteZeroYear.
  apply eq_true_iff_eq.
  rewrite !andb_true_iff, !orb_true_iff, negb_true_iff, Z.ltb_lt,
    !Z.eqb_eq, Z.eqb_neq.
  split; intros H; Z.div_mod_to_equations; lia.
Qed.

(** [daysSinceEpoch] with its cycle counts named; no sum wraps for the
    years of interest. *)
Lemma daysSinceEpoch_digits year :
  time.absoluteZeroYear <= year <= 1000000 ->
  exists n1 n2 n3 n4,
    year = 400 * n1 + 100 * n2 + 4 * n3 + n4 + time.absoluteZeroYear
    /\ time.daysSinceEpoch year
       = 146097 * n1 + 36524 * n2 + 1461 * n3 + 365 * n4
    /\ 0 <= n1 <= 730695056 /\ 0 <= n2 <= 3 /\ 0 <= n3 <= 24 /\ 0 <= n4 <= 3.
Proof.
  intros H. unfold time.daysSinceEpoch. cbv zeta.
  change time.daysPer400Years with 146097.
  change time.daysPer100Years with 36524.
  change time.daysPer4Years with 1461.
  set (y := wrap_u64 (year - time.absoluteZeroYear)).
  assert (Hy : y = year - time.absoluteZeroYear /\ 0 <= y <= 292278022399).
  { subst y. unfold time.absoluteZeroYear in *.
    rewrite wrap_u64_small; lia. }
  destruct Hy as [Hy Hy'].
  set (n1 := y / 400). set (y1 := y - 400 * n1).
  set (n2 := y1 / 100). set (y2 := y1 - 100 * n2).
  set (n3 := y2 / 4). set (y3 := y2 - 4 * n3).
  exists n1, n2, n3, y3.
  assert (H1 : 0 <= n1 <= 730695056 /\ 0 <= y1 < 400)
    by (subst y1 n1; Z.div_mod_to_equations; lia).
  assert (H2 : 0 <= n2 <= 3 /\ 0 <= y2 < 100)
    by (subst y2 n2; Z.div_mod_to_equations; lia).
  assert (H3 : 0 <= n3 <= 24 /\ 0 <= y3 < 4)
    by (subst y3 n3; Z.div_mod_to_equations; lia).
  split; [subst y3 y2 y1; lia|].
  split; [|lia].
  rewrite (wrap_u64_small (146097 * n1)) by lia.
  rewrite (wrap_u64_small (146097 * n1 + _)) by lia.
  rewrite (wrap_u64_small (146097 * n1 + _ + _)) by lia.
  rewrite wrap_u64_small by lia. reflexivity.
Qed.

Lemma digits_unique n1 n2 n3 n4 yd m1 m2 m3 m4 yd' :
  146097 * n1 + 36524 * n2 + 1461 * n3 + 365 * n4 + yd
  = 146097 * m1 + 36524 * m2 + 1461 * m3 + 365 * m4 + yd' ->
  0 <= n2 <= 3 -> 0 <= n3 <= 24 -> 0 <= n4 <= 3 ->
  0 <= yd -> (yd < 365 \/ (yd = 365 /\ n4 = 3 /\ (n3 < 24 \/ n2 = 3))) ->
  0 <= m2 <= 3 -> 0 <= m3 <= 24 -> 0 <= m4 <= 3 ->
  0 <= yd' -> (yd' < 365 \/ (yd' = 365 /\ m4 = 3 /\ (m3 < 24 \/ m2 = 3))) ->
  n1 = m1 /\ n2 = m2 /\ n3 = m3 /\ n4 = m4 /\ yd = yd'.
Proof.
  intros E Hn2 Hn3 Hn4 Hyd Hl Hm2 Hm3 Hm4 Hyd' Hl'.
  assert (A1 : 0 <= 365 * n4 + yd < 1461) by lia.
  assert (B1 : 0 <= 365 * m4 + yd' < 1461) by lia.
  assert (A2 : 0 <= 1461 * n3 + 365 * n4 + yd < 36525
               /\ (n2 < 3 -> 1461 * n3 + 365 * n4 + yd < 36524)) by lia.
  assert (B2 : 0 <= 1461 * m3 + 365 * m4 + yd' < 36525
               /\ (m2 < 3 -> 1461 * m3 + 365 * m4 + yd' < 36524)) by lia.
  assert (A3 : 0 <= 36524 * n2 + 1461 * n3 + 365 * n4 + yd < 146097) by lia.
  assert (B3 : 0 <= 36524 * m2 + 1461 * m3 + 365 * m4 + yd' < 146097) by lia.
  assert (E1 : n1 = m1) by lia. subst m1.
  assert (E2 : n2 = m2) by lia. subst m2.
  assert (E3 : n3 = m3) by lia. subst m3.
  assert (E4 : n4 = m4) by lia. subst m4.
  repeat split; lia.
Qed.

(** The year and day of the year of a day count built by [Date] are read
    back by [absYear]. *)
Lemma absYear_civil year yd s :
  time.absoluteZeroYear <= year <= 1000000 ->
  0 <= yd < yearLen (time.isLeap year) -> 0 <= s < 86400 ->
  time.absYear ((time.daysSinceEpoch year + yd) * 86400 + s) = (year, yd).
Proof.
  intros Hy Hyd Hs.
  destruct (daysSinceEpoch_digits year Hy)
    as (m1 & m2 & m3 & m4 & Ey & Ed & Hm1 & Hm2 & Hm3 & Hm4).
  set (a := (time.daysSinceEpoch year + yd) * 86400 + s).
  assert (Ha : 0 <= a) by (subst a; lia).
  destruct (absYear_split a Ha)
    as (n1 & n2 & n3 & n4 & yd' & Ea & Eq & Hn1 & Hn2 & Hn3 & Hn4 & Hyd' & Hl).
  assert (Eq' : a / 86400 = time.daysSinceEpoch year + yd).
  { subst a. symmetry. apply (Z.div_unique _ _ _ s); lia. }
  rewrite Eq' in Eq. rewrite Ed in Eq.
  assert (Hl' : yd < 365 \/ (yd = 365 /\ m4 = 3 /\ (m3 < 24 \/ m2 = 3))).
  { rewrite Ey in Hyd. rewrite isLeap_digits in Hyd by lia.
    unfold yearLen in Hyd.
    destruct (m4 =? 3) eqn:E4; [|simpl in Hyd; lia].
    destruct (m3 <? 24) eqn:E3; simpl in Hyd.
    - apply Z.eqb_eq in E4. apply Z.ltb_lt in E3. lia.
    - destruct (m2 =? 3) eqn:E2; simpl in Hyd; [|lia].
      apply Z.eqb_eq in E4. apply Z.eqb_eq in E2. lia. }
  destruct (digits_unique m1 m2 m3 m4 yd n1 n2 n3 n4 yd')
    as (-> & -> & -> & -> & ->); try lia.
  rewrite Ea. f_equal.
  unfold time.absoluteZeroYear in *.
  rewrite (wrap_i64_small (400 * n1 + _ + _ + _)) by lia.
  rewrite wrap_i64_small by lia. lia.
Qed.

(** Whatever the count of seconds, [absYear] yields a day within the
    year it yields. *)
Lemma absYear_range a :
  0 <= a < 18446744073709551616 ->
  0 <= snd (time.absYear a) < yearLen (time.isLeap (fst (time.absYear a)))
  /\ time.absoluteZeroYear <= fst (time.absYear a) <= 292277030000.
Proof.
  intros Ha.
  destruct (absYear_split a (proj1 Ha))
    as (n1 & n2 & n3 & n4 & yd & Ea & Eq & Hn1 & Hn2 & Hn3 & Hn4 & Hyd & Hl).
  assert (Hb : 146097 * n1 <= 213503982334601).
  { assert (a / 86400 <= 213503982334601)
      by (Z.div_mod_to_equations; lia).
    lia. }
  rewrite Ea. cbn [fst snd].
  unfold time.absoluteZeroYear in *.
  rewrite (wrap_i64_small (400 * n1 + _ + _ + _)) by lia.
  rewrite wrap_i64_small by lia.
  pose proof (isLeap_digits n1 n2 n3 n4 Hn2 Hn3 Hn4) as L.
  unfold time.absoluteZeroYear in L. rewrite L.
  split; [|lia].
  unfold yearLen.
  destruct (Z.eqb_spec n4 3); destruct (Z.ltb_spec n3 24);
    destruct (Z.eqb_spec n2 3); cbn [andb orb]; lia.
Qed.

Lemma yearDay_inverts_ydayOf_checked : yearDay_inverts_ydayOf = true.
Proof. vm_compute. reflexivity. Qed.

Lemma yearDay_lands_checked : yearDay_lands = true.
Proof. vm_compute. reflexivity. Qed.

Lemma yearDay_ydayOf leap m d :
  1 <= m <= 12 -> 1 <= d <= daysIn leap m ->
  time.yearDay leap (ydayOf leap m d) = (m, d).
Proof.
  intros Hm Hd.
  assert (Hd31 : daysIn leap m <= 31).
  { assert (Hc : m = 1 \/ m = 2 \/ m = 3 \/ m = 4 \/ m = 5 \/ m = 6 \/ m = 7
                 \/ m = 8 \/ m = 9 \/ m = 10 \/ m = 11 \/ m = 12) by lia.
    repeat (destruct Hc as [Hc|Hc];
            [subst m; destruct leap; vm_compute; discriminate|]).
    subst m; destruct leap; vm_compute; discriminate. }
  pose proof yearDay_inverts_ydayOf_checked as C.
  unfold yearDay_inverts_ydayOf in C.
  rewrite forallb_forall in C.
  assert (Hl : In leap [true; false]) by (destruct leap; cbn; auto).
  specialize (C leap Hl). rewrite forallb_forall in C.
  specialize (C m ltac:(apply zrange_In; lia)). rewrite forallb_forall in C.
  specialize (C d ltac:(apply zrange_In; lia)).
  assert (Hle : (d <=? daysIn leap m) = true) by (apply Z.leb_le; lia).
  rewrite Hle in C. cbn [implb] in C.
  unfold pair_eqb in C. apply andb_prop in C. destruct C as [C1 C2].
  apply Z.eqb_eq in C1. apply Z.eqb_eq in C2. cbn [fst snd] in C1, C2.
  destruct (time.yearDay leap (ydayOf leap m d)) as [m' d'].
  cbn [fst snd] in C1, C2. congruence.
Qed.

Lemma yearDay_range leap yd :
  0 <= yd < yearLen leap ->
  1 <= fst (time.yearDay leap yd) <= 12
  /\ 1 <= snd (time.yearDay leap yd) <= daysIn leap (fst (time.yearDay leap yd))
  /\ ydayOf leap (fst (time.yearDay leap yd)) (snd (time.yearDay leap yd)) = yd.
Proof.
  intros H.
  pose proof yearDay_lands_checked as C.
  unfold yearDay_lands in C. rewrite forallb_forall in C.
  assert (Hl : In leap [true; false]) by (destruct leap; cbn; auto).
  specialize (C leap Hl). rewrite forallb_forall in C.
  assert (Hr : yd < 366) by (unfold yearLen in H; destruct leap; lia).
  specialize (C yd ltac:(apply zrange_In; lia)).
  assert (Hlt : (yd <? yearLen leap) = true) by (apply Z.ltb_lt; lia).
  rewrite Hlt in C. cbn [implb] in C.
  destruct (time.yearDay leap yd) as [m d]. cbn [fst snd].
  rewrite !andb_true_iff in C.
  rewrite !Z.leb_le, Z.eqb_eq in C. lia.
Qed.

Lemma daysIn_days_in_month y m :
  1 <= m <= 12 -> daysIn (time.isLeap y) m = days_in_month y m.
Proof.
  intros Hm. rewrite isLeap_mod. unfold days_in_month, daysIn.
  assert (Hc : m = 1 \/ m = 2 \/ m = 3 \/ m = 4 \/ m = 5 \/ m = 6 \/ m = 7
               \/ m = 8 \/ m = 9 \/ m = 10 \/ m = 11 \/ m = 12) by lia.
  repeat (destruct Hc as [Hc|Hc];
          [subst m; destruct (gregorian_leap y); reflexivity|]).
  subst m; destruct (gregorian_leap y); reflexivity.
Qed.

Lemma ydayOf_range leap m d :
  1 <= m <= 12 -> 1 <= d <= daysIn leap m ->
  0 <= ydayOf leap m d < yearLen leap.
Proof.
  intros Hm.
  assert (Hc : m = 1 \/ m = 2 \/ m = 3 \/ m = 4 \/ m = 5 \/ m = 6 \/ m = 7
               \/ m = 8 \/ m = 9 \/ m = 10 \/ m = 11 \/ m = 12) by lia.
  unfold ydayOf.
  repeat (destruct Hc as [Hc|Hc];
          [subst m; destruct leap; close_tables; lia|]).
  subst m; destruct leap; close_tables; lia.
Qed.

Lemma daysBefore_bound k : 0 <= nth k time.daysBefore 0 <= 365.
Proof.
  unfold time.daysBefore.
  do 13 (destruct k as [|k]; [cbn; lia|]).
  destruct k; cbn; lia.
Qed.

Lemma norm_id hi lo base : 0 <= lo < base -> time.norm hi lo base = (hi, lo).
Proof.
  intros H. unfold time.norm.
  destruct (Z.ltb_spec lo 0); [lia|].
  destruct (Z.geb_spec lo base); [lia|]. reflexivity.
Qed.

(** For a month in range, [Date] counts the days to January 1 of the year,
    the days of the year before the date, and turns them into seconds. *)
Lemma civilAbs_midnight y m d :
  - 1000000 <= y <= 1000000 -> 1 <= m <= 12 -> - 1000 <= d <= 1000 ->
  time.civilAbs y m d 0 0 0 0
  = ((time.daysSinceEpoch y + ydayOf (time.isLeap y) m d) * 86400, 0).
Proof.
  intros Hy Hm Hd. unfold time.civilAbs.
  rewrite (norm_id y (m - 1) 12) by lia. cbv beta iota zeta.
  rewrite (norm_id 0 0 1000000000) by lia. cbv beta iota zeta.
  rewrite (norm_id 0 0 60) by lia. cbv beta iota zeta.
  rewrite (norm_id 0 0 60) by lia. cbv beta iota zeta.
  rewrite (norm_id d 0 24) by lia. cbv beta iota zeta.
  replace (m - 1 + 1) with m by lia.
  assert (Hy' : time.absoluteZeroYear <= y <= 1000000)
    by (unfold time.absoluteZeroYear; lia).
  destruct (daysSinceEpoch_digits y Hy')
    as (n1 & n2 & n3 & n4 & Ey & Ed & Hn1 & Hn2 & Hn3 & Hn4).
  assert (Hlo : 106000000000000 <= time.daysSinceEpoch y).
  { rewrite Ed. unfold time.absoluteZeroYear in Ey. lia. }
  assert (Hhi : time.daysSinceEpoch y <= 106753000000000) by lia.
  pose proof (daysBefore_bound (Z.to_nat (m - 1))) as Hb.
  unfold ydayOf.
  set (B := nth (Z.to_nat (m - 1)) time.daysBefore 0) in *.
  set (D := time.daysSinceEpoch y) in *.
  change time.secondsPerDay with 86400.
  change (0 * time.secondsPerHour + 0 * time.secondsPerMinute + 0) with 0.
  rewrite (wrap_u64_small 0) by lia. rewrite Z.add_0_r.
  rewrite (wrap_u64_small (D + B)) by lia.
  assert (E1 : (if time.isLeap y && (3 <=? m) then wrap_u64 (D + B + 1)
                else D + B)
               = D + B + (if time.isLeap y && (3 <=? m) then 1 else 0)).
  { destruct (time.isLeap y && (3 <=? m)).
    - apply wrap_u64_small. lia.
    - lia. }
  rewrite E1.
  set (L := if time.isLeap y && (3 <=? m) then 1 else 0).
  assert (HL : 0 <= L <= 1) by (subst L; destruct (_ && _); lia).
  assert (E2 : wrap_u64 (D + B + L + wrap_u64 (d - 1)) = D + B + L + d - 1).
  { unfold wrap_u64. rewrite Z.add_mod_idemp_r by lia.
    rewrite Z.mod_small by lia. lia. }
  rewrite E2.
  rewrite (wrap_u64_small ((D + B + L + d - 1) * 86400)) by lia.
  rewrite wrap_u64_small by lia.
  f_equal. lia.
Qed.

Lemma abs_absWith t :
  time.abs t = absWith t (time.zoffset (time.lookup (time.loc t) (time.unixSec t))).
Proof. reflexivity. Qed.

Lemma Date_unfold y m d l :
  time.Date y m d 0 0 0 0 l
  = time.unixTime
      (wrap_i64 (dateUnix y m d - time.dateOffset l (dateUnix y m d)))
      (snd (time.civilAbs y m d 0 0 0 0)) l.
Proof.
  unfold time.Date, dateUnix.
  destruct (time.civilAbs y m d 0 0 0 0) as [a ns]. reflexivity.
Qed.

Lemma wrap_i64_eqm x : wrap_i64 x mod 18446744073709551616 = x mod 18446744073709551616.
Proof.
  unfold wrap_i64.
  rewrite <- Zminus_mod_idemp_l.
  rewrite Z.mod_mod by lia.
  rewrite Zminus_mod_idemp_l. f_equal. lia.
Qed.

Lemma wrap_u64_i64_add x c : wrap_u64 (wrap_i64 x + c) = wrap_u64 (x + c).
Proof.
  unfold wrap_u64. rewrite <- Z.add_mod_idemp_l by lia.
  rewrite wrap_i64_eqm. rewrite Z.add_mod_idemp_l by lia. reflexivity.
Qed.

Lemma wrap_i64_i64_add x c : wrap_i64 (wrap_i64 x + c) = wrap_i64 (x + c).
Proof.
  unfold wrap_i64 at 1 3. f_equal.
  replace (wrap_i64 x + c + 9223372036854775808)
    with (wrap_i64 x + (c + 9223372036854775808)) by lia.
  replace (x + c + 9223372036854775808)
    with (x + (c + 9223372036854775808)) by lia.
  apply wrap_u64_i64_add.
Qed.

(** Read back under the offset [Date] subtracted, the seconds [Date]
    counted are recovered: the wrap-arounds cancel. *)
Lemma absWith_unixTime a ns l off :
  0 <= a < 18446744073709551616 ->
  absWith
    (time.unixTime
       (wrap_i64 (wrap_i64 (wrap_i64 a + (time.absoluteToInternal + time.internalToUnix)) - off))
       ns l) off
  = a.
Proof.
  intros Ha. unfold absWith, time.unixSec, time.unixTime. cbn [time.ext].
  rewrite wrap_u64_i64_add.
  rewrite <- Z.add_assoc. rewrite wrap_u64_i64_add.
  rewrite <- Z.add_assoc. rewrite wrap_u64_i64_add.
  rewrite <- Z.add_assoc. rewrite wrap_u64_i64_add.
  unfold Z.sub. rewrite <- Z.add_assoc. rewrite wrap_u64_i64_add.
  rewrite <- Z.add_assoc. rewrite wrap_u64_i64_add.
  rewrite <- (wrap_u64_small a) at 2 by exact Ha.
  f_equal.
  change time.internalToUnix with (- 62135596800).
  change time.unixToInternal with 62135596800.
  change time.internalToAbsolute with 9223371966579724800.
  change time.absoluteToInternal with (- 9223371966579724800).
  lia.
Qed.

Lemma dateOffset_zoneOffsetOf l u : zoneOffsetOf l (time.dateOffset l u).
Proof.
  unfold zoneOffsetOf, time.dateOffset. cbv zeta.
  destruct (Z.eqb_spec (time.zoffset (time.lookup l u)) 0) as [E|E].
  - exists u. symmetry. exact E.
  - destruct (_ || _); eexists; reflexivity.
Qed.

Lemma lookup_fixed l sec :
  time.tx l = [] -> time.zoffset (time.lookup l sec) = time.first_offset l.
Proof. intros H. unfold time.lookup. rewrite H. reflexivity. Qed.

Lemma dateOffset_fixed l u :
  time.tx l = [] -> time.dateOffset l u = time.first_offset l.
Proof.
  intros H. unfold time.dateOffset, time.lookup. rewrite H. cbn.
  destruct (Z.eqb_spec (time.first_offset l) 0) as [E|E]; [congruence|].
  destruct (_ || _); reflexivity.
Qed.

(** A location without transitions (UTC, a fixed zone) skips no midnight. *)
Lemma offsetInForce_fixed l y m d :
  time.tx l = [] -> offsetInForce l y m d = true.
Proof.
  intros H. unfold offsetInForce.
  rewrite lookup_fixed, dateOffset_fixed by exact H.
  apply Z.eqb_refl.
Qed.

Lemma real_date_inv y m d :
  real_date y m d = true ->
  1 <= m <= 12 /\ 1 <= d <= daysIn (time.isLeap y) m.
Proof.
  unfold real_date. rewrite !andb_true_iff, !Z.leb_le.
  intros [[[H1 H2] H3] H4].
  rewrite daysIn_days_in_month by lia. lia.
Qed.

(** The seconds [Date] counts for midnight of a real date read back as that
    date, at 00:00:00. *)
Lemma absDate_civil y m d :
  - 1000000 <= y <= 1000000 -> real_date y m d = true ->
  let a := fst (time.civilAbs y m d 0 0 0 0) in
  0 <= a < 18446744073709551616
  /\ time.absDate a = (y, m, d) /\ a mod 86400 = 0
  /\ snd (time.civilAbs y m d 0 0 0 0) = 0.
Proof.
  intros Hy Hr. apply real_date_inv in Hr. destruct Hr as [Hm Hd].
  assert (Hd' : daysIn (time.isLeap y) m <= 31).
  { assert (Hc : m = 1 \/ m = 2 \/ m = 3 \/ m = 4 \/ m = 5 \/ m = 6 \/ m = 7
                 \/ m = 8 \/ m = 9 \/ m = 10 \/ m = 11 \/ m = 12) by lia.
    repeat (destruct Hc as [Hc|Hc];
            [subst m; destruct (time.isLeap y); vm_compute; discriminate|]).
    subst m; destruct (time.isLeap y); vm_compute; discriminate. }
  rewrite civilAbs_midnight by lia. cbn [fst snd].
  pose proof (ydayOf_range (time.isLeap y) m d Hm Hd) as Hyd.
  assert (Hy' : time.absoluteZeroYear <= y <= 1000000)
    by (unfold time.absoluteZeroYear; lia).
  destruct (daysSinceEpoch_digits y Hy')
    as (n1 & n2 & n3 & n4 & Ey & Ed & Hn1 & Hn2 & Hn3 & Hn4).
  assert (Hyl : yearLen (time.isLeap y) <= 366)
    by (unfold yearLen; destruct (time.isLeap y); lia).
  split; [lia|]. split; [|split].
  - unfold time.absDate.
    pose proof (absYear_civil y (ydayOf (time.isLeap y) m d) 0 Hy' Hyd
                  ltac:(lia)) as E.
    rewrite Z.add_0_r in E. rewrite E.
    rewrite yearDay_ydayOf by assumption. reflexivity.
  - apply Z.mod_mul. lia.
  - reflexivity.
Qed.

(** [Date] at midnight of a real date: the instant which, read under the
    offset [Date] chose, is that date at 00:00:00. *)
Lemma Date_midnight y m d l :
  - 1000000 <= y <= 1000000 -> real_date y m d = true ->
  time.loc (time.Date y m d 0 0 0 0 l) = l
  /\ time.nsec (time.Date y m d 0 0 0 0 l) = 0
  /\ time.absDate
       (absWith (time.Date y m d 0 0 0 0 l)
                (time.dateOffset l (dateUnix y m d))) = (y, m, d)
  /\ absWith (time.Date y m d 0 0 0 0 l)
             (time.dateOffset l (dateUnix y m d)) mod 86400 = 0.
Proof.
  intros Hy Hr.
  destruct (absDate_civil y m d Hy Hr) as (Ha & Hd & Hmod & Hns).
  rewrite Date_unfold. rewrite Hns.
  split; [reflexivity|]. split; [reflexivity|].
  unfold dateUnix. rewrite absWith_unixTime by exact Ha.
  split; assumption.
Qed.

Lemma Clock_midnight t : time.abs t mod 86400 = 0 -> time.Clock t = (0, 0, 0).
Proof.
  intros H. unfold time.Clock. change time.secondsPerDay with 86400.
  rewrite H. reflexivity.
Qed.

Lemma fields_of_absDate t y m d :
  time.absDate (time.abs t) = (y, m, d) ->
  time.Year t = y /\ time.Month t = m /\ time.Day t = d.
Proof.
  unfold time.Year, time.Month, time.Day, time.absDate.
  generalize (time.abs t) as a. intros a.
  destruct (time.absYear a) as [y' yd']. cbn [fst].
  destruct (time.yearDay (time.isLeap y') yd') as [m' d']. cbn [fst snd].
  intros E. inversion E. auto.
Qed.

(** When the offset [Date] chose is in force at the instant it returned,
    the fields of the time are those it was built from. *)
Lemma Date_fields y m d l :
  - 1000000 <= y <= 1000000 -> real_date y m d = true ->
  offsetInForce l y m d = true ->
  time.Year (time.Date y m d 0 0 0 0 l) = y
  /\ time.Month (time.Date y m d 0 0 0 0 l) = m
  /\ time.Day (time.Date y m d 0 0 0 0 l) = d
  /\ time.Clock (time.Date y m d 0 0 0 0 l) = (0, 0, 0).
Proof.
  intros Hy Hr Hin.
  destruct (Date_midnight y m d l Hy Hr) as (Hl & Hns & Hd & Hmod).
  unfold offsetInForce in Hin. apply Z.eqb_eq in Hin.
  revert Hl Hns Hd Hmod Hin.
  generalize (time.Date y m d 0 0 0 0 l) as t.
  generalize (time.dateOffset l (dateUnix y m d)) as off.
  intros off t Hl Hns Hd Hmod Hin.
  assert (E : time.abs t = absWith t off).
  { rewrite abs_absWith. rewrite Hl. rewrite Hin. reflexivity. }
  rewrite <- E in Hd, Hmod.
  destruct (fields_of_absDate t y m d Hd) as (Ey & Em & Ed).
  repeat split; try assumption.
  apply Clock_midnight. exact Hmod.
Qed.

(** The fields of any [Time] form a real date, within the years a [Time]
    can hold. *)
Lemma Time_real_date t :
  real_date (time.Year t) (time.Month t) (time.Day t) = true
  /\ time.absoluteZeroYear <= time.Year t <= 292277030000.
Proof.
  unfold time.Year, time.Month, time.Day, time.absDate.
  assert (Ha : 0 <= time.abs t < 18446744073709551616)
    by (unfold time.abs; apply wrap_u64_range).
  destruct (absYear_range _ Ha) as [Hyd Hy].
  destruct (time.absYear (time.abs t)) as [y yd]. cbn [fst snd] in *.
  destruct (yearDay_range _ _ Hyd) as (Hm & Hd & _).
  destruct (time.yearDay (time.isLeap y) yd) as [m d]. cbn [fst snd] in *.
  split; [|exact Hy].
  unfold real_date. rewrite <- daysIn_days_in_month by exact Hm.
  rewrite !andb_true_iff, !Z.leb_le. lia.
Qed.

Lemma days_in_month_bound y m : 1 <= m <= 12 -> 28 <= days_in_month y m <= 31.
Proof.
  intros Hm. unfold days_in_month.
  assert (Hc : m = 1 \/ m = 2 \/ m = 3 \/ m = 4 \/ m = 5 \/ m = 6 \/ m = 7
               \/ m = 8 \/ m = 9 \/ m = 10 \/ m = 11 \/ m = 12) by lia.
  repeat (destruct Hc as [Hc|Hc];
          [subst m; destruct (gregorian_leap y); cbn; lia|]).
  subst m; destruct (gregorian_leap y); cbn; lia.
Qed.

Lemma Time_fields_range t :
  1 <= time.Month t <= 12 /\ 1 <= time.Day t <= 31
  /\ time.absoluteZeroYear <= time.Year t <= 292277030000.
Proof.
  destruct (Time_real_date t) as [Hr Hy]. revert Hr Hy.
  generalize (time.Year t) (time.Month t) (time.Day t).
  intros y m d Hr Hy.
  unfold real_date in Hr. rewrite !andb_true_iff, !Z.leb_le in Hr.
  destruct Hr as [[[H1 H2] H3] H4].
  pose proof (days_in_month_bound y m (conj H1 H2)).
  lia.
Qed.

(** * Facts about package ymdflag *)

Import ymdflag.

(** On positive values Go's truncating [/] and [%] are the floor division
    of the specification. *)
Lemma decomposition_pos n :
  0 <= n ->
  Z.quot n 10000 = year_of n
  /\ Z.quot (Z.rem n 10000) 100 = month_of n
  /\ Z.rem n 100 = day_of n.
Proof.
  intros H. unfold year_of, month_of, day_of.
  rewrite Z.quot_div_nonneg by lia.
  rewrite !Z.rem_mod_nonneg by lia.
  rewrite Z.quot_div_nonneg; [auto| |lia].
  apply Z.mod_pos_bound. lia.
Qed.

Lemma decomposition_range n :
  0 <= n <= 99999999 ->
  0 <= year_of n <= 9999 /\ 0 <= month_of n <= 99 /\ 0 <= day_of n <= 99
  /\ n = 10000 * year_of n + 100 * month_of n + day_of n.
Proof.
  intros H. unfold year_of, month_of, day_of.
  Z.div_mod_to_equations. lia.
Qed.

Lemma TimeToYMD_nonzero t :
  time.IsZero t = false ->
  TimeToYMD t = 10000 * time.Year t + 100 * time.Month t + time.Day t.
Proof.
  intros H. unfold TimeToYMD. rewrite H.
  destruct (Time_fields_range t) as (Hm & Hd & Hy). revert Hm Hd Hy.
  generalize (time.Year t) (time.Month t) (time.Day t).
  intros y m d Hm Hd Hy.
  unfold time.absoluteZeroYear in Hy.
  apply wrap_i64_small. lia.
Qed.

(** [ValidateYMD] accepts a value only if it is 0 or encodes a real date,
    whatever the local zone. *)
Lemma ValidateYMD_sound Local n :
  ValidateYMD Local n = None ->
  n = 0 \/ (1 <= n <= 99999999 /\ valid_ymd n = true).
Proof.
  unfold ValidateYMD.
  destruct (Z.eqb_spec n 0) as [E|E]; [auto|].
  destruct (Z.ltb_spec n 0) as [L|L]; [discriminate|].
  destruct (Z.gtb_spec n 99999999) as [G|G]; [discriminate|].
  destruct (decomposition_pos n L) as (-> & -> & ->).
  set (dt := time.Date _ _ _ 0 0 0 0 Local).
  destruct (Z.eqb_spec (year_of n) (time.Year dt)) as [Ey|]; [|discriminate].
  destruct (Z.eqb_spec (month_of n) (time.Month dt)) as [Em|]; [|discriminate].
  destruct (Z.eqb_spec (day_of n) (time.Day dt)) as [Ed|]; [|discriminate].
  intros _. right. split; [lia|].
  unfold valid_ymd. rewrite Ey, Em, Ed. apply Time_real_date.
Qed.

(** [ValidateYMD] accepts every real date whose midnight the local zone
    does not skip. *)
Lemma ValidateYMD_complete Local n :
  1 <= n <= 99999999 -> valid_ymd n = true ->
  offsetInForce Local (year_of n) (month_of n) (day_of n) = true ->
  ValidateYMD Local n = None.
Proof.
  intros Hn Hv Hin. unfold ValidateYMD.
  destruct (Z.eqb_spec n 0) as [E|E]; [reflexivity|].
  destruct (Z.ltb_spec n 0) as [L|L]; [lia|].
  destruct (Z.gtb_spec n 99999999) as [G|G]; [lia|].
  destruct (decomposition_pos n L) as (-> & -> & ->).
  destruct (decomposition_range n ltac:(lia)) as (Hy & _).
  destruct (Date_fields (year_of n) (month_of n) (day_of n) Local
              ltac:(lia) Hv Hin) as (-> & -> & -> & _).
  rewrite !Z.eqb_refl. reflexivity.
Qed.

(** In a location without transitions [ValidateYMD] is exactly the strict
    calendar check of the specification. *)
Lemma ValidateYMD_fixed_zone Local n :
  time.tx Local = [] ->
  (ValidateYMD Local n = None
   <-> n = 0 \/ (1 <= n <= 99999999 /\ valid_ymd n = true)).
Proof.
  intros Hfix. split.
  - apply ValidateYMD_sound.
  - intros [->|[Hn Hv]]; [reflexivity|].
    apply ValidateYMD_complete; try assumption.
    apply offsetInForce_fixed. exact Hfix.
Qed.

Lemma ValidateYMD_out_of_range Local n :
  (n < 0 -> ValidateYMD Local n = Some ErrNegative)
  /\ (99999999 < n -> ValidateYMD Local n = Some ErrMoreThan8Digits).
Proof.
  unfold ValidateYMD. split; intros H.
  - destruct (Z.eqb_spec n 0); [lia|].
    destruct (Z.ltb_spec n 0); [reflexivity|lia].
  - destruct (Z.eqb_spec n 0); [lia|].
    destruct (Z.ltb_spec n 0); [lia|].
    destruct (Z.gtb_spec n 99999999); [reflexivity|lia].
Qed.

(** The cases of the package's tests, run in UTC. *)
Lemma ValidateYMD_examples_UTC :
  ValidateYMD time.UTC 20220101 = None
  /\ ValidateYMD time.UTC 0 = None
  /\ ValidateYMD time.UTC 20240229 = None
  /\ ValidateYMD time.UTC 20230229 = Some ErrBadOrUnnormalized
  /\ ValidateYMD time.UTC 209901231 = Some ErrMoreThan8Digits
  /\ ValidateYMD time.UTC 4161 = Some ErrBadOrUnnormalized
  /\ ValidateYMD time.UTC 20221301 = Some ErrBadOrUnnormalized
  /\ ValidateYMD time.UTC 20221241 = Some ErrBadOrUnnormalized
  /\ ValidateYMD time.UTC (-1) = Some ErrNegative.
Proof. vm_compute. repeat split. Qed.

(** The zero [Time] is reached from a real date only from 0001-01-01 at
    offset 0, when offsets stay within a day. *)
Lemma YMDToTime_IsZero Local loc n :
  0 < n <= 99999999 -> valid_ymd n = true ->
  - 86400 < time.dateOffset (resolve Local loc)
              (dateUnix (year_of n) (month_of n) (day_of n)) < 86400 ->
  time.IsZero (YMDToTime Local n loc) = true ->
  n = 10101
  /\ time.dateOffset (resolve Local loc)
       (dateUnix (year_of n) (month_of n) (day_of n)) = 0.
Proof.
  intros Hn Hv Hoff Hz.
  destruct (decomposition_range n ltac:(lia)) as (Hy & Hm & Hd & En).
  unfold YMDToTime in Hz.
  destruct (Z.eqb_spec n 0) as [E0|_]; [lia|].
  destruct (decomposition_pos n ltac:(lia)) as (Eq1 & Eq2 & Eq3).
  rewrite Eq1, Eq2, Eq3 in Hz. fold (resolve Local loc) in Hz.
  unfold valid_ymd in Hv.
  destruct (absDate_civil (year_of n) (month_of n) (day_of n) ltac:(lia) Hv)
    as (Ha & Hdate & Hmod & Hns).
  rewrite Date_unfold in Hz. unfold dateUnix in *.
  revert Hz Hoff Ha Hdate Hmod.
  generalize (time.dateOffset (resolve Local loc)
                (wrap_i64 (wrap_i64 (fst (time.civilAbs (year_of n) (month_of n) (day_of n) 0 0 0 0))
                           + (time.absoluteToInternal + time.internalToUnix)))) as off.
  rewrite civilAbs_midnight.
  2: lia.
  2: { apply real_date_inv in Hv. lia. }
  2: { apply real_date_inv in Hv.
       pose proof (days_in_month_bound (year_of n) (month_of n) (proj1 Hv)).
       rewrite daysIn_days_in_month in Hv by lia. lia. }
  cbn [fst snd].
  generalize (time.daysSinceEpoch (year_of n)
              + ydayOf (time.isLeap (year_of n)) (month_of n) (day_of n)) as D.
  intros D off Hz Hoff Ha Hdate Hmod.
  unfold time.IsZero, time.unixTime in Hz. cbn [time.ext time.nsec] in Hz.
  apply andb_prop in Hz. destruct Hz as [Hz _]. apply Z.eqb_eq in Hz.
  assert (HD : D * 86400 = 9223371966579724800 /\ off = 0).
  { revert Hz.
    rewrite wrap_i64_i64_add.
    unfold Z.sub. rewrite <- Z.add_assoc. rewrite wrap_i64_i64_add.
    rewrite <- Z.add_assoc. rewrite wrap_i64_i64_add.
    change time.internalToUnix with (- 62135596800).
    change time.unixToInternal with 62135596800.
    change time.absoluteToInternal with (- 9223371966579724800).
    unfold wrap_i64. intros Hz.
    Z.div_mod_to_equations. lia. }
  destruct HD as [HD ->]. split; [|reflexivity].
  rewrite HD in Hdate.
  assert (E1 : time.absDate 9223371966579724800 = (1, 1, 1))
    by (vm_compute; reflexivity).
  rewrite E1 in Hdate. inversion Hdate as [[Ey Em Ed]].
  rewrite <- Ey, <- Em, <- Ed in En. lia.
Qed.

(** * The claims *)

(** C1, as stated, fails: the date 0001-01-01 is valid, but in UTC its
    midnight is the zero Time, which [TimeToYMD] maps to 0; and in a
    location whose clocks skip the midnight of 2024-03-10 the time built
    reads as the day before. *)
Lemma TimeToYMD_YMDToTime_not_inverse :
  (0 < 10101 <= 99999999 /\ valid_ymd 10101 = true
   /\ TimeToYMD (YMDToTime time.UTC 10101 (Some time.UTC)) <> 10101)
  /\ (0 < 20240310 <= 99999999 /\ valid_ymd 20240310 = true
      /\ TimeToYMD (YMDToTime time.UTC 20240310 (Some Havana)) <> 20240310).
Proof.
  assert (E1 : TimeToYMD (YMDToTime time.UTC 10101 (Some time.UTC)) = 0)
    by (vm_compute; reflexivity).
  assert (E2 : TimeToYMD (YMDToTime time.UTC 20240310 (Some Havana)) = 20240309)
    by (vm_compute; reflexivity).
  rewrite E1, E2.
  repeat split; try lia; try reflexivity.
Qed.

(** C1 (amended): for every n in (0, 99999999] that decomposes into a real
    calendar date, and every location (nil standing for time.Local) in
    which the offset time.Date chose for that midnight is in force at the
    instant it returned, converting n with YMDToTime and back with
    TimeToYMD yields n, unless the time built is the zero Time. *)
Theorem TimeToYMD_YMDToTime_roundtrip Local loc n :
  0 < n <= 99999999 -> valid_ymd n = true ->
  offsetInForce (resolve Local loc) (year_of n) (month_of n) (day_of n) = true ->
  time.IsZero (YMDToTime Local n loc) = false ->
  TimeToYMD (YMDToTime Local n loc) = n.
Proof.
  intros Hn Hv Hin Hz.
  rewrite TimeToYMD_nonzero by exact Hz.
  destruct (decomposition_range n ltac:(lia)) as (Hy & Hm & Hd & En).
  unfold YMDToTime.
  destruct (Z.eqb_spec n 0) as [E0|_]; [lia|].
  destruct (decomposition_pos n ltac:(lia)) as (-> & -> & ->).
  fold (resolve Local loc).
  destruct (Date_fields (year_of n) (month_of n) (day_of n) (resolve Local loc)
              ltac:(lia) Hv Hin) as (-> & -> & -> & _).
  lia.
Qed.

Lemma TimeToYMD_YMDToTime_roundtrip_witness :
  TimeToYMD (YMDToTime time.UTC 20220101 (Some (time.FixedZone 3600)))
  = 20220101.
Proof.
  apply TimeToYMD_YMDToTime_roundtrip.
  - lia.
  - vm_compute. reflexivity.
  - vm_compute. reflexivity.
  - vm_compute. reflexivity.
Defined.

(** C2: ValidateYMD reads the date back in time.Local, so in a process
    whose local zone skips the midnight of 2024-03-10 it rejects the real
    date 20240310, which it accepts in UTC. *)
Theorem ValidateYMD_rejects_real_date_in_gap :
  valid_ymd 20240310 = true
  /\ ValidateYMD Havana 20240310 = Some ErrBadOrUnnormalized
  /\ ValidateYMD time.UTC 20240310 = None.
Proof. vm_compute. repeat split. Qed.

Lemma StringToYMD_ok_range Local Digit str v :
  StringToYMD Local Digit str = (v, None) -> 0 <= v <= 99999999.
Proof.
  unfold StringToYMD.
  destruct (String.eqb str EmptyString); [intros E; inversion E; lia|].
  destruct (_ || _); [discriminate|].
  destruct (strconv.Atoi str) as [n [e|]]; [discriminate|].
  destruct (ValidateYMD Local n) eqn:V; [discriminate|].
  intros E. inversion E. subst v.
  destruct (ValidateYMD_sound Local n V) as [->|[H _]]; lia.
Qed.

(** C4, as stated, fails: NewYMDFlag stores what TimeToYMD returns without
    validating it; a time in year 10000 gives a value of 9 digits, a time
    in year -1 a negative one. *)
Lemma NewYMDFlag_out_of_range :
  ~ in_range (NewYMDFlag (time.Date 10000 1 1 0 0 0 0 time.UTC))
  /\ yyyymmdd (NewYMDFlag (time.Date 10000 1 1 0 0 0 0 time.UTC)) = 100000101
  /\ yyyymmdd (NewYMDFlag (time.Date (- 1) 1 1 0 0 0 0 time.UTC)) = - 9899.
Proof.
  assert (E : NewYMDFlag (time.Date 10000 1 1 0 0 0 0 time.UTC)
              = mkYMDFlag 100000101) by (vm_compute; reflexivity).
  assert (F : NewYMDFlag (time.Date (- 1) 1 1 0 0 0 0 time.UTC)
              = mkYMDFlag (- 9899)) by (vm_compute; reflexivity).
  rewrite E, F. unfold in_range. cbn [yyyymmdd].
  split; [lia|]. split; reflexivity.
Qed.

(** C4 (amended): a YMDFlag made by NewYMDFlagFromInt has its value in
    [0, 99999999], and Set keeps a value in that range in it (what it
    stores has been validated, and on failure it stores nothing);
    NewYMDFlag and UpdateNilToNow store the encoding of a time unvalidated:
    it is in range exactly when the time is the zero Time or its year, in
    its location, is in [0, 9999]. *)
Theorem stored_value_in_range :
  (forall Local i, in_range (fst (NewYMDFlagFromInt Local i)))
  /\ (forall Local Digit value ymd,
         in_range ymd -> in_range (snd (Set_ Local Digit value ymd)))
  /\ (forall Local Digit value ymd,
         fst (Set_ Local Digit value ymd) = None ->
         in_range (snd (Set_ Local Digit value ymd)))
  /\ (forall t, in_range (NewYMDFlag t) <-> year_fits t)
  /\ (forall now location ymd,
         in_range ymd -> year_fits (clockIn now location) ->
         in_range (snd (UpdateNilToNow now location ymd)))
  /\ (forall now location,
         in_range (snd (UpdateNilToNow now location (mkYMDFlag 0)))
         <-> year_fits (clockIn now location)).
Proof.
  assert (HN : forall t, in_range (NewYMDFlag t) <-> year_fits t).
  { intros t. unfold in_range, NewYMDFlag, year_fits. cbn [yyyymmdd].
    destruct (time.IsZero t) eqn:Z.
    - unfold TimeToYMD. rewrite Z. split; [auto|lia].
    - rewrite TimeToYMD_nonzero by exact Z.
      destruct (Time_fields_range t) as (Hm & Hd & _). revert Hm Hd.
      generalize (time.Year t) (time.Month t) (time.Day t).
      intros y m d Hm Hd. split.
      + intros H. right. lia.
      + intros [H|H]; [discriminate|lia]. }
  split; [|split; [|split; [|split; [|split]]]].
  - intros Local i. unfold NewYMDFlagFromInt, in_range.
    destruct (ValidateYMD Local i) eqn:V; cbn [fst yyyymmdd]; [lia|].
    destruct (ValidateYMD_sound Local i V) as [->|[H _]]; lia.
  - intros Local Digit value ymd Hr. unfold Set_.
    destruct (StringToYMD Local Digit value) as [v [e|]] eqn:S.
    + exact Hr.
    + unfold in_range. cbn. apply (StringToYMD_ok_range _ _ _ _ S).
  - intros Local Digit value ymd. unfold Set_.
    destruct (StringToYMD Local Digit value) as [v [e|]] eqn:S.
    + cbn. discriminate.
    + intros _. unfold in_range. cbn. apply (StringToYMD_ok_range _ _ _ _ S).
  - exact HN.
  - intros now location ymd Hr Hnow.
    unfold UpdateNilToNow, bind, get, ret, put.
    destruct (yyyymmdd ymd =? 0); cbn [negb snd]; [|exact Hr].
    apply (HN (clockIn now location)). exact Hnow.
  - intros now location. apply (HN (clockIn now location)).
Qed.

Lemma stored_value_in_range_witness :
  in_range (snd (Set_ time.UTC (fun _ => false) "20220101" (mkYMDFlag 0)))
  /\ in_range (snd (UpdateNilToNow
                      (time.Date 2026 10 31 12 0 0 0 time.UTC)
                      (Some (time.FixedZone 3600)) (mkYMDFlag 0))).
Proof.
  destruct stored_value_in_range as (_ & HS & _ & _ & HU & _). split.
  - apply HS. unfold in_range. cbn. lia.
  - apply HU.
    + unfold in_range. cbn. lia.
    + right. vm_compute. split; discriminate.
Defined.

(** C6: String leaves the flag as it found it, whatever its value, and
    reads no clock; on an unset flag it returns the empty string. *)
Theorem String_leaves_flag_unchanged ymd :
  snd (String_ ymd) = ymd
  /\ fst (String_ ymd) = AsYMDString ymd
  /\ String_ (mkYMDFlag 0) = (EmptyString, mkYMDFlag 0).
Proof. repeat split. Qed.

(** C9: on a flag whose stored value is not 0, UpdateNilToNow changes
    nothing, whatever the clock and the location. *)
Theorem UpdateNilToNow_set_is_noop now location ymd :
  yyyymmdd ymd <> 0 ->
  snd (UpdateNilToNow now location ymd) = ymd.
Proof.
  intros H. unfold UpdateNilToNow, bind, get, ret.
  destruct (Z.eqb_spec (yyyymmdd ymd) 0) as [E|E]; [contradiction|].
  reflexivity.
Qed.

Lemma UpdateNilToNow_set_is_noop_witness :
  snd (UpdateNilToNow (time.Date 2026 10 31 12 0 0 0 time.UTC)
         (Some Havana) (mkYMDFlag 20220102))
  = mkYMDFlag 20220102.
Proof.
  apply UpdateNilToNow_set_is_noop. cbn. discriminate.
Defined.

(** C10: when StringToYMD returns an error for the input, Set returns that
    same error and the stored value is what it was. *)
Theorem Set_failure_is_atomic Local Digit value ymd e :
  snd (StringToYMD Local Digit value) = Some e ->
  Set_ Local Digit value ymd = (Some e, ymd).
Proof.
  intros H. unfold Set_.
  destruct (StringToYMD Local Digit value) as [v err].
  cbn [snd] in H. subst err. reflexivity.
Qed.

Lemma Set_failure_is_atomic_witness :
  Set_ time.UTC (fun _ => false) "2022-01-01" (mkYMDFlag 20220102)
  = (Some ErrFormat, mkYMDFlag 20220102).
Proof.
  apply Set_failure_is_atomic. vm_compute. reflexivity.
Defined.

(** ** Midnights that a zone transition skips *)

(** Reading a time at another offset shifts it by the difference. *)
Lemma absWith_shift t o o' :
  absWith t o' = wrap_u64 (absWith t o + (o' - o)).
Proof.
  unfold absWith. rewrite !wrap_u64_i64_add. unfold wrap_u64.
  rewrite Z.add_mod_idemp_l by lia. f_equal. lia.
Qed.

(** The absolute seconds of a midnight lie a day away from both ends of
    uint64. *)
Lemma civilAbs_bounds y m d :
  - 1000000 <= y <= 1000000 -> real_date y m d = true ->
  86400 <= fst (time.civilAbs y m d 0 0 0 0)
  /\ fst (time.civilAbs y m d 0 0 0 0) + 86400 < 18446744073709551616.
Proof.
  intros Hy Hr. apply real_date_inv in Hr. destruct Hr as [Hm Hd].
  pose proof (ydayOf_range (time.isLeap y) m d Hm Hd) as Hyd.
  assert (Hd' : daysIn (time.isLeap y) m <= 31).
  { assert (Hc : m = 1 \/ m = 2 \/ m = 3 \/ m = 4 \/ m = 5 \/ m = 6 \/ m = 7
                 \/ m = 8 \/ m = 9 \/ m = 10 \/ m = 11 \/ m = 12) by lia.
    repeat (destruct Hc as [Hc|Hc];
            [subst m; destruct (time.isLeap y); vm_compute; discriminate|]).
    subst m; destruct (time.isLeap y); vm_compute; discriminate. }
  rewrite civilAbs_midnight by lia. cbn [fst].
  assert (Hy' : time.absoluteZeroYear <= y <= 1000000)
    by (unfold time.absoluteZeroYear; lia).
  destruct (daysSinceEpoch_digits y Hy')
    as (n1 & n2 & n3 & n4 & Ey & Ed & Hn1 & Hn2 & Hn3 & Hn4).
  assert (Hyl : yearLen (time.isLeap y) <= 366)
    by (unfold yearLen; destruct (time.isLeap y); lia).
  unfold time.absoluteZeroYear in Ey.
  revert Hyd Hyl Ed. generalize (ydayOf (time.isLeap y) m d).
  generalize (yearLen (time.isLeap y)). generalize (time.daysSinceEpoch y).
  intros D L Y Hyd Hyl Ed. lia.
Qed.

Lemma Clock_zero_inv t : time.Clock t = (0, 0, 0) -> time.abs t mod 86400 = 0.
Proof.
  unfold time.Clock.
  change time.secondsPerDay with 86400. change time.secondsPerHour with 3600.
  change time.secondsPerMinute with 60.
  pose proof (Z.mod_pos_bound (time.abs t) 86400 ltac:(lia)) as Hs.
  revert Hs. generalize (time.abs t mod 86400). intros s Hs E.
  injection E as Eh Em Es. rewrite Eh in Em, Es.
  rewrite Z.mul_0_l, Z.sub_0_r in Em, Es. rewrite Em in Es. lia.
Qed.

(** Where the offset [Date] subtracted is not the one in force at the
    instant it returned, and the two differ by less than a day, the time
    does not show 00:00:00. *)
Lemma Date_skipped_midnight y m d l :
  - 1000000 <= y <= 1000000 -> real_date y m d = true ->
  offsetInForce l y m d = false ->
  - 86400
  < time.zoffset (time.lookup l (time.unixSec (time.Date y m d 0 0 0 0 l)))
    - time.dateOffset l (dateUnix y m d) < 86400 ->
  time.Clock (time.Date y m d 0 0 0 0 l) <> (0, 0, 0).
Proof.
  intros Hy Hr Hin Hb.
  destruct (Date_midnight y m d l Hy Hr) as (Hl & _ & _ & Hmod).
  destruct (civilAbs_bounds y m d Hy Hr) as (Hlo & Hhi).
  assert (Ea : absWith (time.Date y m d 0 0 0 0 l)
                 (time.dateOffset l (dateUnix y m d))
               = fst (time.civilAbs y m d 0 0 0 0)).
  { rewrite Date_unfold. unfold dateUnix. apply absWith_unixTime. lia. }
  unfold offsetInForce in Hin. apply Z.eqb_neq in Hin.
  revert Hl Hmod Ea Hin Hb Hlo Hhi.
  generalize (time.Date y m d 0 0 0 0 l) as t.
  generalize (time.dateOffset l (dateUnix y m d)) as off.
  generalize (fst (time.civilAbs y m d 0 0 0 0)) as a.
  intros a off t Hl Hmod Ea Hin Hb Hlo Hhi Hc.
  apply Clock_zero_inv in Hc.
  rewrite abs_absWith in Hc. rewrite Hl in Hc.
  rewrite (absWith_shift t off) in Hc. rewrite Ea in Hc, Hmod.
  revert Hin Hb Hc.
  generalize (time.zoffset (time.lookup l (time.unixSec t))) as o'.
  intros o' Hin Hb Hc.
  rewrite wrap_u64_small in Hc by lia.
  revert Hmod Hc. rewrite !Z.mod_divide by lia.
  intros (q & Eq) (q' & Eq'). lia.
Qed.

(** For a positive [n], [YMDToTime] is [Date] of the decoded fields. *)
Lemma YMDToTime_Date Local n loc :
  0 < n ->
  YMDToTime Local n loc
  = time.Date (year_of n) (month_of n) (day_of n) 0 0 0 0 (resolve Local loc).
Proof.
  intros Hn. unfold YMDToTime. destruct (Z.eqb_spec n 0); [lia|].
  destruct (decomposition_pos n ltac:(lia)) as (-> & -> & ->).
  reflexivity.
Qed.

(** C8, as stated, fails.  In a location whose clocks skip the midnight of
    2024-03-10 (as America/Havana's do) YMDToTime(20240310, loc) is a time
    that reads 23:00:00 on the 9th there; and a value that decodes to no
    real date is normalised by time.Date: 20221341 (month 13, day 41) gives
    February 10 of 2023. *)
Lemma YMDToTime_not_midnight_of_decoded_date :
  (valid_ymd 20240310 = true
   /\ time.loc (YMDToTime time.UTC 20240310 (Some Havana)) = Havana
   /\ time.Clock (YMDToTime time.UTC 20240310 (Some Havana)) = (23, 0, 0)
   /\ time.Clock (YMDToTime time.UTC 20240310 (Some Havana)) <> (0, 0, 0)
   /\ time.Day (YMDToTime time.UTC 20240310 (Some Havana)) = 9
   /\ time.Day (YMDToTime time.UTC 20240310 (Some Havana))
      <> day_of 20240310)
  /\ (time.Year (YMDToTime time.UTC 20221341 (Some time.UTC)) = 2023
      /\ time.Month (YMDToTime time.UTC 20221341 (Some time.UTC)) = 2
      /\ time.Day (YMDToTime time.UTC 20221341 (Some time.UTC)) = 10
      /\ time.Month (YMDToTime time.UTC 20221341 (Some time.UTC))
         <> month_of 20221341).
Proof.
  assert (A : time.Clock (YMDToTime time.UTC 20240310 (Some Havana))
              = (23, 0, 0)) by (vm_compute; reflexivity).
  assert (B : time.Day (YMDToTime time.UTC 20240310 (Some Havana)) = 9)
    by (vm_compute; reflexivity).
  assert (C : time.Month (YMDToTime time.UTC 20221341 (Some time.UTC)) = 2)
    by (vm_compute; reflexivity).
  rewrite A, B, C.
  change (day_of 20240310) with 10. change (month_of 20221341) with 13.
  repeat split; try discriminate; vm_compute; reflexivity.
Qed.

(** C8 (amended): YMDToTime of 0 is the zero Time in every location, and
    no clock enters.  For every n of 1 to 8 digits that decodes to a real
    calendar date, and every location (time.Local for nil) in which the
    zone offset time.Date chose for that midnight is in force at the
    instant it returned (no zone transition skips the midnight; always so
    in UTC and fixed-offset zones), YMDToTime(n, loc) is the time in that
    location, without nanoseconds, that shows the decoded year, month and
    day at 00:00:00.  Where that offset is not in force, and the one in
    force differs from it by less than a day, the time does not show
    00:00:00; it still shows the decoded date at 00:00:00 when read at
    the offset Date chose, one of those of the location.  For every other
    n that is not 0 it is time.Date of the decoded fields, which
    normalises them.  The readings at the end are of Havana and Cairo
    around their transitions, and of values that decode to no real
    date. *)
Theorem YMDToTime_midnight_where_it_exists Local loc n :
  YMDToTime Local 0 loc = time.zeroTime
  /\ time.IsZero (YMDToTime Local 0 loc) = true
  /\ (0 < n <= 99999999 -> valid_ymd n = true ->
      offsetInForce (resolve Local loc)
        (year_of n) (month_of n) (day_of n) = true ->
      time.loc (YMDToTime Local n loc) = resolve Local loc
      /\ time.nsec (YMDToTime Local n loc) = 0
      /\ civil (YMDToTime Local n loc)
         = (year_of n, month_of n, day_of n, (0, 0, 0)))
  /\ (0 < n <= 99999999 -> valid_ymd n = true ->
      time.tx (resolve Local loc) = [] ->
      time.loc (YMDToTime Local n loc) = resolve Local loc
      /\ time.nsec (YMDToTime Local n loc) = 0
      /\ civil (YMDToTime Local n loc)
         = (year_of n, month_of n, day_of n, (0, 0, 0)))
  /\ (0 < n <= 99999999 -> valid_ymd n = true ->
      offsetInForce (resolve Local loc)
        (year_of n) (month_of n) (day_of n) = false ->
      - 86400
      < time.zoffset (time.lookup (resolve Local loc)
                        (time.unixSec (YMDToTime Local n loc)))
        - time.dateOffset (resolve Local loc)
            (dateUnix (year_of n) (month_of n) (day_of n)) < 86400 ->
      time.Clock (YMDToTime Local n loc) <> (0, 0, 0))
  /\ (0 < n <= 99999999 -> valid_ymd n = true ->
      time.loc (YMDToTime Local n loc) = resolve Local loc
      /\ time.nsec (YMDToTime Local n loc) = 0
      /\ zoneOffsetOf (resolve Local loc)
           (time.dateOffset (resolve Local loc)
              (dateUnix (year_of n) (month_of n) (day_of n)))
      /\ time.absDate
           (absWith (YMDToTime Local n loc)
              (time.dateOffset (resolve Local loc)
                 (dateUnix (year_of n) (month_of n) (day_of n))))
         = (year_of n, month_of n, day_of n)
      /\ absWith (YMDToTime Local n loc)
           (time.dateOffset (resolve Local loc)
              (dateUnix (year_of n) (month_of n) (day_of n))) mod 86400 = 0)
  /\ (n <> 0 ->
      YMDToTime Local n loc
      = time.Date (Z.quot n 10000) (Z.quot (Z.rem n 10000) 100) (Z.rem n 100)
          0 0 0 0 (resolve Local loc))
  /\ (civil (YMDToTime time.UTC 20240309 (Some Havana))
      = (2024, 3, 9, (0, 0, 0))
      /\ civil (YMDToTime time.UTC 20240310 (Some Havana))
         = (2024, 3, 9, (23, 0, 0))
      /\ civil (YMDToTime time.UTC 20240311 (Some Havana))
         = (2024, 3, 11, (0, 0, 0))
      /\ time.unixSec (YMDToTime time.UTC 20240311 (Some Havana))
         = 1710129600
      /\ civil (YMDToTime time.UTC 20241103 (Some HavanaRules))
         = (2024, 11, 3, (0, 0, 0))
      /\ time.unixSec (YMDToTime time.UTC 20241103 (Some HavanaRules))
         = 1730606400
      /\ civil (YMDToTime time.UTC 20241201 (Some HavanaRules))
         = (2024, 12, 1, (0, 0, 0))
      /\ time.unixSec (YMDToTime time.UTC 20241201 (Some HavanaRules))
         = 1733029200
      /\ civil (YMDToTime time.UTC 20250309 (Some HavanaRules))
         = (2025, 3, 8, (23, 0, 0))
      /\ civil (YMDToTime HavanaRules 20250601 None)
         = (2025, 6, 1, (0, 0, 0))
      /\ time.unixSec (YMDToTime HavanaRules 20250601 None) = 1748750400
      /\ civil (YMDToTime time.UTC 20230427 (Some Cairo))
         = (2023, 4, 27, (0, 0, 0))
      /\ civil (YMDToTime time.UTC 20230428 (Some Cairo))
         = (2023, 4, 28, (1, 0, 0))
      /\ civil (YMDToTime time.UTC 20230429 (Some Cairo))
         = (2023, 4, 29, (0, 0, 0))
      /\ civil (YMDToTime Cairo 20220102 (Some (time.FixedZone (- 18000))))
         = (2022, 1, 2, (0, 0, 0))
      /\ time.unixSec
           (YMDToTime Cairo 20220102 (Some (time.FixedZone (- 18000))))
         = 1641099600
      /\ civil (YMDToTime time.UTC 20221341 (Some time.UTC))
         = (2023, 2, 10, (0, 0, 0))
      /\ civil (YMDToTime time.UTC 20220000 (Some time.UTC))
         = (2021, 11, 30, (0, 0, 0))
      /\ civil (YMDToTime time.UTC 99999999 (Some time.UTC))
         = (10007, 6, 7, (0, 0, 0))).
Proof.
  assert (HM : 0 < n <= 99999999 -> valid_ymd n = true ->
               time.loc (YMDToTime Local n loc) = resolve Local loc
               /\ time.nsec (YMDToTime Local n loc) = 0
               /\ time.absDate
                    (absWith (YMDToTime Local n loc)
                       (time.dateOffset (resolve Local loc)
                          (dateUnix (year_of n) (month_of n) (day_of n))))
                  = (year_of n, month_of n, day_of n)
               /\ absWith (YMDToTime Local n loc)
                    (time.dateOffset (resolve Local loc)
                       (dateUnix (year_of n) (month_of n) (day_of n)))
                  mod 86400 = 0).
  { intros Hn Hv.
    destruct (decomposition_range n ltac:(lia)) as (Hy & _).
    rewrite YMDToTime_Date by lia.
    apply Date_midnight; [lia|exact Hv]. }
  assert (HF : 0 < n <= 99999999 -> valid_ymd n = true ->
               offsetInForce (resolve Local loc)
                 (year_of n) (month_of n) (day_of n) = true ->
               time.loc (YMDToTime Local n loc) = resolve Local loc
               /\ time.nsec (YMDToTime Local n loc) = 0
               /\ civil (YMDToTime Local n loc)
                  = (year_of n, month_of n, day_of n, (0, 0, 0))).
  { intros Hn Hv Hin. destruct (HM Hn Hv) as (H1 & H2 & _).
    split; [exact H1|]. split; [exact H2|].
    destruct (decomposition_range n ltac:(lia)) as (Hy & _).
    unfold civil. rewrite YMDToTime_Date by lia.
    destruct (Date_fields (year_of n) (month_of n) (day_of n)
                (resolve Local loc) ltac:(lia) Hv Hin)
      as (-> & -> & -> & ->).
    reflexivity. }
  split; [reflexivity|]. split; [reflexivity|].
  split; [exact HF|].
  split; [|split; [|split; [|split]]].
  - intros Hn Hv Hfix. apply HF; [exact Hn|exact Hv|].
    apply offsetInForce_fixed. exact Hfix.
  - intros Hn Hv Hin.
    destruct (decomposition_range n ltac:(lia)) as (Hy & _).
    rewrite YMDToTime_Date by lia.
    apply Date_skipped_midnight; [lia|exact Hv|exact Hin].
  - intros Hn Hv. destruct (HM Hn Hv) as (H1 & H2 & H3 & H4).
    split; [exact H1|]. split; [exact H2|].
    split; [apply dateOffset_zoneOffsetOf|]. split; assumption.
  - intros Hn. unfold YMDToTime.
    destruct (Z.eqb_spec n 0) as [E|E]; [contradiction|]. reflexivity.
  - repeat split; vm_compute; reflexivity.
Qed.

Lemma YMDToTime_midnight_where_it_exists_witness :
  civil (YMDToTime Havana 20240311 None) = (2024, 3, 11, (0, 0, 0))
  /\ civil (YMDToTime Havana 20220102 (Some (time.FixedZone 3600)))
     = (2022, 1, 2, (0, 0, 0))
  /\ time.Clock (YMDToTime Havana 20240310 None) <> (0, 0, 0)
  /\ time.absDate
       (absWith (YMDToTime Havana 20240310 None)
          (time.dateOffset (resolve Havana None)
             (dateUnix (year_of 20240310) (month_of 20240310)
                (day_of 20240310))))
     = (year_of 20240310, month_of 20240310, day_of 20240310)
  /\ YMDToTime Havana 20221341 None
     = time.Date (Z.quot 20221341 10000) (Z.quot (Z.rem 20221341 10000) 100)
         (Z.rem 20221341 100) 0 0 0 0 (resolve Havana None).
Proof.
  destruct (YMDToTime_midnight_where_it_exists Havana None 20240311)
    as (_ & _ & H & _).
  destruct (YMDToTime_midnight_where_it_exists Havana
              (Some (time.FixedZone 3600)) 20220102)
    as (_ & _ & _ & G & _).
  destruct (YMDToTime_midnight_where_it_exists Havana None 20240310)
    as (_ & _ & _ & _ & K & M & _).
  destruct (YMDToTime_midnight_where_it_exists Havana None 20221341)
    as (_ & _ & _ & _ & _ & _ & N & _).
  split; [|split; [|split; [|split]]].
  - apply H.
    + lia.
    + vm_compute. reflexivity.
    + vm_compute. reflexivity.
  - apply G.
    + lia.
    + vm_compute. reflexivity.
    + reflexivity.
  - apply K.
    + lia.
    + vm_compute. reflexivity.
    + vm_compute. reflexivity.
    + vm_compute. split; reflexivity.
  - apply M.
    + lia.
    + vm_compute. reflexivity.
  - apply N. lia.
Defined.

(** * Facts about strings *)

Lemma byte_of_range c : 0 <= byte_of c < 256.
Proof.
  unfold byte_of. pose proof (N_ascii_bounded c) as H. lia.
Qed.

Lemma bytes_String c s : bytes (String c s) = byte_of c :: bytes s.
Proof. reflexivity. Qed.

Lemma bytes_app s1 s2 : bytes (s1 ++ s2) = (bytes s1 ++ bytes s2)%list.
Proof.
  induction s1 as [|c s1 IH]; [reflexivity|].
  cbn [append]. rewrite !bytes_String, IH. reflexivity.
Qed.

Lemma length_bytes s : List.length (bytes s) = String.length s.
Proof.
  induction s as [|c s IH]; [reflexivity|].
  rewrite bytes_String. cbn [List.length String.length]. congruence.
Qed.

Lemma bytes_range s : Forall (fun b => 0 <= b < 256) (bytes s).
Proof.
  induction s as [|c s IH]; [constructor|].
  rewrite bytes_String. constructor; [apply byte_of_range|exact IH].
Qed.

Lemma length_app s1 s2 :
  String.length (s1 ++ s2) = (String.length s1 + String.length s2)%nat.
Proof.
  induction s1 as [|c s1 IH]; [reflexivity|].
  cbn [append String.length]. rewrite IH. reflexivity.
Qed.

Lemma length_repeat_char c n : String.length (repeat_char c n) = n.
Proof. induction n as [|n IH]; [reflexivity|]. cbn. congruence. Qed.

(** Ranging over ASCII bytes yields the bytes. *)
Lemma range_fuel_ascii bs :
  forall fuel, (List.length bs <= fuel)%nat ->
  forallb (fun b => b <? utf8.RuneSelf) bs = true ->
  utf8.range_fuel fuel bs = bs.
Proof.
  induction bs as [|b bs IH]; intros fuel Hf Ha.
  - destruct fuel; reflexivity.
  - destruct fuel as [|fuel]; [cbn in Hf; lia|].
    cbn [forallb] in Ha. apply andb_prop in Ha. destruct Ha as [Hb Ha].
    cbn [utf8.range_fuel]. rewrite Hb. f_equal.
    apply IH; [cbn in Hf; lia|exact Ha].
Qed.

Lemma is_ascii_digit_lt b : is_ascii_digit b = true -> (b <? utf8.RuneSelf) = true.
Proof.
  unfold is_ascii_digit, utf8.RuneSelf. rewrite andb_true_iff, !Z.leb_le.
  intros H. apply Z.ltb_lt. lia.
Qed.

Lemma IsDigit_ascii Digit b :
  b <= 255 -> unicode.IsDigit Digit b = is_ascii_digit b.
Proof.
  intros H. unfold unicode.IsDigit, unicode.MaxLatin1, is_ascii_digit.
  destruct (Z.leb_spec b 255); [reflexivity|lia].
Qed.

(** On a string of ASCII digits [isInt] holds. *)
Lemma isInt_digits Digit s : all_digits s = true -> isInt Digit s = true.
Proof.
  intros H. unfold isInt, utf8.range.
  rewrite range_fuel_ascii.
  - unfold all_digits in H. rewrite forallb_forall in *.
    intros b Hb. specialize (H b Hb).
    rewrite IsDigit_ascii; [exact H|].
    unfold is_ascii_digit in H. rewrite andb_true_iff, !Z.leb_le in H. lia.
  - rewrite length_bytes. lia.
  - unfold all_digits in H. rewrite forallb_forall in *.
    intros b Hb. apply is_ascii_digit_lt. apply H. exact Hb.
Qed.

(** [isInt] looks at the first byte when it is ASCII. *)
Lemma isInt_head Digit c s :
  byte_of c < 128 -> isInt Digit (String c s) = true ->
  is_ascii_digit (byte_of c) = true.
Proof.
  intros Hc. unfold isInt, utf8.range.
  cbn [String.length]. rewrite bytes_String. cbn [utf8.range_fuel].
  unfold utf8.RuneSelf.
  destruct (Z.ltb_spec (byte_of c) 128) as [_|]; [|lia].
  cbn [forallb]. rewrite andb_true_iff. intros [H _].
  rewrite IsDigit_ascii in H by lia. exact H.
Qed.

Lemma atoi_loop_digits bs :
  forall n, forallb is_ascii_digit bs = true ->
  strconv.atoi_loop bs n = Some (decimal_of bs n).
Proof.
  induction bs as [|b bs IH]; intros n H; [reflexivity|].
  cbn [forallb] in H. apply andb_prop in H. destruct H as [Hb H].
  cbn [strconv.atoi_loop decimal_of fold_left].
  unfold is_ascii_digit in Hb. rewrite andb_true_iff, !Z.leb_le in Hb.
  rewrite (Z.mod_small (b - 48)) by lia.
  destruct (Z.gtb_spec (b - 48) 9); [lia|].
  rewrite IH by exact H. f_equal. unfold decimal_of. f_equal. lia.
Qed.

Lemma atoi_loop_Some bs :
  forall n v, Forall (fun b => 0 <= b < 256) bs ->
  strconv.atoi_loop bs n = Some v -> forallb is_ascii_digit bs = true.
Proof.
  induction bs as [|b bs IH]; intros n v Hr H; [reflexivity|].
  inversion Hr as [|? ? Hb Hr']; subst.
  cbn [strconv.atoi_loop] in H.
  destruct (Z.gtb_spec ((b - 48) mod 256) 9) as [G|G]; [discriminate|].
  cbn [forallb]. rewrite (IH _ _ Hr' H). rewrite andb_true_r.
  unfold is_ascii_digit. rewrite andb_true_iff, !Z.leb_le.
  revert G. clear - Hb. intros G. Z.div_mod_to_equations. lia.
Qed.

(** [Atoi] on 8 ASCII digits. *)
Lemma Atoi_eight_digits s :
  eight_ascii_digits s = true -> strconv.Atoi s = (decimal_value s, None).
Proof.
  unfold eight_ascii_digits. rewrite andb_true_iff, Nat.eqb_eq.
  intros [Hl Hd]. unfold strconv.Atoi. rewrite Hl.
  change ((0 <? Z.of_nat 8) && (Z.of_nat 8 <? 19)) with true. cbv iota.
  unfold all_digits in Hd. unfold decimal_value.
  destruct (bytes s) as [|s0 rest] eqn:E.
  - pose proof (length_bytes s) as L. rewrite E, Hl in L. discriminate.
  - assert (H0 : is_ascii_digit s0 = true)
      by (cbn [forallb] in Hd; apply andb_prop in Hd; tauto).
    unfold is_ascii_digit in H0. rewrite andb_true_iff, !Z.leb_le in H0.
    destruct (Z.eqb_spec s0 45); [lia|]. destruct (Z.eqb_spec s0 43); [lia|].
    cbn [orb andb]. rewrite atoi_loop_digits by exact Hd. reflexivity.
Qed.

(** [Atoi] on 8 bytes that pass [isInt] but are not all ASCII digits. *)
Lemma Atoi_eight_not_digits Digit s :
  String.length s = 8%nat -> all_digits s = false -> isInt Digit s = true ->
  strconv.Atoi s = (0, Some strconv.ErrSyntax).
Proof.
  intros Hl Hd Hi. unfold strconv.Atoi. rewrite Hl.
  change ((0 <? Z.of_nat 8) && (Z.of_nat 8 <? 19)) with true. cbv iota.
  destruct s as [|c s]; [discriminate|].
  rewrite bytes_String.
  assert (Hsign : (byte_of c =? 45) || (byte_of c =? 43) = false).
  { destruct (Z.eqb_spec (byte_of c) 45) as [E|E];
      destruct (Z.eqb_spec (byte_of c) 43) as [F|F]; try reflexivity;
      exfalso;
      assert (Hc : byte_of c < 128) by lia;
      pose proof (isInt_head Digit c s Hc Hi) as H;
      unfold is_ascii_digit in H; rewrite andb_true_iff, !Z.leb_le in H; lia. }
  rewrite Hsign. cbn [andb].
  destruct (strconv.atoi_loop (byte_of c :: bytes s) 0) as [v|] eqn:A;
    [|reflexivity].
  exfalso. pose proof (bytes_range (String c s)) as Hr.
  rewrite bytes_String in Hr.
  pose proof (atoi_loop_Some _ _ _ Hr A) as D.
  unfold all_digits in Hd. rewrite bytes_String in Hd. congruence.
Qed.

(** C5: the empty string gives 0 and no error; a string that is not empty
    and not exactly 8 ASCII digits gives an error; 8 ASCII digits give the
    integer they denote when ValidateYMD accepts it and ValidateYMD's error,
    wrapped, when it does not. *)
Theorem StringToYMD_spec Local Digit str :
  StringToYMD Local Digit EmptyString = (0, None)
  /\ (str <> EmptyString -> eight_ascii_digits str = false ->
      exists e, StringToYMD Local Digit str = (0, Some e))
  /\ (eight_ascii_digits str = true ->
      StringToYMD Local Digit str
      = match ValidateYMD Local (decimal_value str) with
        | None => (decimal_value str, None)
        | Some e => (0, Some (ErrValidateString e))
        end)
  /\ (ValidateYMD Local 20220101 = None ->
      StringToYMD Local Digit "20220101" = (20220101, None))
  /\ StringToYMD time.UTC Digit "20220101" = (20220101, None)
  /\ StringToYMD Local Digit "2022-01-01" = (0, Some ErrFormat)
  /\ StringToYMD Local Digit "hello world" = (0, Some ErrFormat)
  /\ StringToYMD Local Digit "123456789" = (0, Some ErrFormat).
Proof.
  assert (H8 : forall L s, eight_ascii_digits s = true ->
      StringToYMD L Digit s
      = match ValidateYMD L (decimal_value s) with
        | None => (decimal_value s, None)
        | Some e => (0, Some (ErrValidateString e))
        end).
  { intros L s H. unfold StringToYMD.
    pose proof H as H'. unfold eight_ascii_digits in H'.
    rewrite andb_true_iff, Nat.eqb_eq in H'. destruct H' as [Hl Hd].
    destruct (String.eqb_spec s EmptyString) as [E|_];
      [subst s; discriminate|].
    rewrite Hl. rewrite (isInt_digits Digit s Hd). cbn [Nat.eqb negb orb].
    rewrite (Atoi_eight_digits s H). reflexivity. }
  split; [reflexivity|]. split; [|split; [|split; [|split]]].
  - intros Hne H. unfold StringToYMD.
    destruct (String.eqb_spec str EmptyString) as [E|_]; [contradiction|].
    destruct (Nat.eqb_spec (String.length str) 8) as [Hl|Hl];
      [|eexists; reflexivity].
    destruct (isInt Digit str) eqn:Hi; [|eexists; reflexivity].
    cbn [negb orb].
    unfold eight_ascii_digits in H. rewrite Hl in H. cbn [Nat.eqb andb] in H.
    rewrite (Atoi_eight_not_digits Digit str Hl H Hi).
    eexists; reflexivity.
  - apply H8.
  - intros V. rewrite (H8 Local "20220101"%string) by reflexivity.
    change (decimal_value "20220101") with 20220101. rewrite V. reflexivity.
  - rewrite (H8 time.UTC "20220101"%string) by reflexivity.
    change (decimal_value "20220101") with 20220101. reflexivity.
  - repeat split.
Qed.

Lemma StringToYMD_spec_witness :
  (exists e, StringToYMD time.UTC (fun _ => false) "2022/1/1" = (0, Some e))
  /\ StringToYMD time.UTC (fun _ => false) "20240229" = (20240229, None).
Proof.
  destruct (StringToYMD_spec time.UTC (fun _ => false) "2022/1/1")
    as (_ & H1 & _).
  destruct (StringToYMD_spec time.UTC (fun _ => false) "20240229")
    as (_ & _ & H2 & _).
  split.
  - apply H1; [discriminate|reflexivity].
  - rewrite H2 by reflexivity. vm_compute. reflexivity.
Defined.

(** ** Decimal output *)

Lemma byte_of_char_of b : 0 <= b < 256 -> byte_of (char_of b) = b.
Proof.
  intros H. unfold byte_of, char_of.
  rewrite Z.mod_small by exact H.
  rewrite N_ascii_embedding by lia. lia.
Qed.

Lemma byte_of_digit_char d : 0 <= d <= 9 -> byte_of (strconv.digit_char d) = 48 + d.
Proof. intros H. unfold strconv.digit_char. apply byte_of_char_of. lia. Qed.

Lemma decimal_of_app a b acc :
  decimal_of (a ++ b) acc = decimal_of b (decimal_of a acc).
Proof. unfold decimal_of. apply fold_left_app. Qed.

Lemma decimal_of_acc bs :
  forall acc,
  decimal_of bs acc = acc * 10 ^ Z.of_nat (List.length bs) + decimal_of bs 0.
Proof.
  induction bs as [|b bs IH]; intros acc.
  - cbn. lia.
  - cbn [decimal_of fold_left List.length]. fold (decimal_of bs (10 * acc + (b - 48))).
    fold (decimal_of bs (10 * 0 + (b - 48))).
    rewrite (IH (10 * acc + (b - 48))), (IH (10 * 0 + (b - 48))).
    rewrite Nat2Z.inj_succ, Z.pow_succ_r by lia. lia.
Qed.

Lemma all_digits_app s1 s2 :
  all_digits (s1 ++ s2) = all_digits s1 && all_digits s2.
Proof. unfold all_digits. rewrite bytes_app. apply forallb_app. Qed.

Lemma all_digits_zeros n : all_digits (repeat_char "0"%char n) = true.
Proof. induction n as [|n IH]; [reflexivity|]. cbn. exact IH. Qed.

Lemma decimal_of_zeros n acc :
  decimal_of (bytes (repeat_char "0"%char n)) acc = acc * 10 ^ Z.of_nat n.
Proof.
  revert acc. induction n as [|n IH]; intros acc.
  - cbn. lia.
  - cbn [repeat_char]. rewrite bytes_String.
    cbn [decimal_of fold_left].
    fold (decimal_of (bytes (repeat_char "0"%char n)) (10 * acc + (byte_of "0"%char - 48))).
    rewrite IH. change (byte_of "0"%char) with 48.
    rewrite Nat2Z.inj_succ, Z.pow_succ_r by lia. lia.
Qed.

(** The digit loop of [fmtInteger]: it leaves the leading digit [u'] and
    puts the other digits [ds] before [acc]. *)
Lemma fmtInteger_loop_spec fuel :
  forall u acc,
  0 <= u < 10 ^ (Z.of_nat fuel + 1) ->
  exists u' ds,
    fmt.fmtInteger_loop fuel u acc = (u', (ds ++ acc)%string)
    /\ 0 <= u' <= 9 /\ all_digits ds = true
    /\ u = u' * 10 ^ Z.of_nat (String.length ds) + decimal_value ds
    /\ (ds = EmptyString \/ 1 <= u').
Proof.
  induction fuel as [|fuel IH]; intros u acc Hu.
  - exists u, EmptyString. cbn in *. repeat split; try lia. auto.
  - cbn [fmt.fmtInteger_loop].
    destruct (Z.geb_spec u 10) as [G|G].
    + set (next := u / 10).
      assert (Hn : 1 <= next /\ 0 <= u - next * 10 <= 9)
        by (subst next; Z.div_mod_to_equations; lia).
      assert (Hn' : 0 <= next < 10 ^ (Z.of_nat fuel + 1)).
      { replace (Z.of_nat (S fuel) + 1) with (Z.succ (Z.of_nat fuel + 1)) in Hu by lia.
        rewrite Z.pow_succ_r in Hu by lia.
        subst next. Z.div_mod_to_equations. lia. }
      destruct (IH next (String (strconv.digit_char (u - next * 10)) acc) Hn')
        as (u' & ds & E & Hu' & Hd & Hv & Hl).
      exists u', (ds ++ String (strconv.digit_char (u - next * 10)) EmptyString)%string.
      split.
      { rewrite E. f_equal. clear. induction ds as [|c ds IHd]; [reflexivity|].
        cbn [append]. rewrite IHd. reflexivity. }
      split; [exact Hu'|]. split.
      { rewrite all_digits_app, Hd. cbn [andb]. unfold all_digits.
        rewrite bytes_String. cbn [bytes forallb map list_ascii_of_string].
        rewrite byte_of_digit_char by lia.
        unfold is_ascii_digit. rewrite andb_true_r, andb_true_iff, !Z.leb_le. lia. }
      split.
      { unfold decimal_value in *. rewrite bytes_app, decimal_of_app.
        rewrite bytes_String. cbn [bytes map list_ascii_of_string decimal_of fold_left].
        rewrite byte_of_digit_char by lia.
        rewrite length_app. cbn [String.length].
        replace (Z.of_nat (String.length ds + 1)) with (Z.succ (Z.of_nat (String.length ds))) by lia.
        rewrite Z.pow_succ_r by lia.
        fold (decimal_of (bytes ds) 0).
        set (V := decimal_of (bytes ds) 0) in *.
        set (P := 10 ^ Z.of_nat (String.length ds)) in *.
        nia. }
      { right. destruct Hl as [->|Hl]; [|exact Hl].
        cbn in Hv. lia. }
    + exists u, EmptyString. cbn. repeat split; try lia. auto.
Qed.

Lemma pad_long wid b :
  wid <= Z.of_nat (String.length b) -> fmt.pad wid b = b.
Proof.
  intros H. unfold fmt.pad.
  replace (Z.to_nat (wid - Z.of_nat (String.length b))) with 0%nat by lia.
  reflexivity.
Qed.

(** The leading digit and the others, zero-filled to [prec], form the
    number padded to [prec] digits. *)
Lemma zero_fill_padded prec u u' ds :
  1 <= prec -> 0 <= u' <= 9 -> all_digits ds = true ->
  u = u' * 10 ^ Z.of_nat (String.length ds) + decimal_value ds ->
  (ds = EmptyString \/ 1 <= u') ->
  padded_digits prec u
    (repeat_char "0"%char
       (Z.to_nat (prec - Z.of_nat (String.length (String (strconv.digit_char u') ds))))
     ++ String (strconv.digit_char u') ds).
Proof.
  intros Hp Hu' Hd Hv Hl.
  set (buf := String (strconv.digit_char u') ds).
  set (k := Z.to_nat (prec - Z.of_nat (String.length buf))).
  assert (Hb : all_digits buf = true).
  { unfold all_digits. subst buf. rewrite bytes_String. cbn [forallb].
    rewrite byte_of_digit_char by lia. fold (all_digits ds). rewrite Hd.
    unfold is_ascii_digit. rewrite andb_true_r, andb_true_iff, !Z.leb_le. lia. }
  assert (Hvb : decimal_value buf = u).
  { unfold decimal_value in *. subst buf. rewrite bytes_String.
    cbn [decimal_of fold_left]. fold (decimal_of (bytes ds) (10 * 0 + (byte_of (strconv.digit_char u') - 48))).
    rewrite decimal_of_acc. rewrite byte_of_digit_char by lia.
    rewrite length_bytes. lia. }
  unfold padded_digits. split; [|split].
  - rewrite all_digits_app, all_digits_zeros, Hb. reflexivity.
  - unfold decimal_value in *. rewrite bytes_app, decimal_of_app.
    rewrite decimal_of_zeros. rewrite decimal_of_acc. rewrite Hvb. lia.
  - rewrite length_app, length_repeat_char.
    destruct (Z.le_gt_cases prec (Z.of_nat (String.length buf))) as [Hle|Hgt].
    + replace k with 0%nat by (subst k; lia). cbn [Nat.add append repeat_char].
      destruct (Z.eq_dec (Z.of_nat (String.length buf)) prec) as [E|E];
        [left; exact E|right].
      split; [lia|].
      subst buf. rewrite bytes_String. cbn [hd].
      rewrite byte_of_digit_char by lia.
      destruct Hl as [->|Hl]; [cbn [String.length] in *; lia|lia].
    + left. subst k. lia.
Qed.

Lemma padded_digits_length w n s :
  padded_digits w n s -> w <= Z.of_nat (String.length s).
Proof. intros (_ & _ & [H|[H _]]); lia. Qed.

(** [%0<w>d] writes its argument zero-padded to [w]. *)
Lemma fmt0d_zero_padded w v :
  2 <= w -> - 9223372036854775808 <= v < 9223372036854775808 ->
  zero_padded w v (fmt.fmt0d w v).
Proof.
  intros Hw Hv. unfold zero_padded, fmt.fmt0d.
  destruct (Z.ltb_spec v 0) as [N|N].
  - assert (Hu : 0 <= wrap_u64 (- v) < 10 ^ (Z.of_nat 20 + 1) /\ wrap_u64 (- v) = - v).
    { rewrite wrap_u64_small by lia. change (10 ^ (Z.of_nat 20 + 1)) with 1000000000000000000000. lia. }
    destruct Hu as [Hu Eu].
    destruct (fmtInteger_loop_spec 20 (wrap_u64 (- v)) EmptyString Hu)
      as (u' & ds & E & Hu' & Hd & Hval & Hl).
    rewrite E.
    replace (ds ++ EmptyString)%string with ds
      by (clear; induction ds as [|c ds IH]; [reflexivity|cbn; congruence]).
    rewrite Eu in Hval.
    pose proof (zero_fill_padded (w - 1) (- v) u' ds ltac:(lia) Hu' Hd Hval Hl) as P.
    revert P.
    generalize (repeat_char "0"%char
                  (Z.to_nat (w - 1 - Z.of_nat (String.length (String (strconv.digit_char u') ds))))
                ++ String (strconv.digit_char u') ds)%string as X.
    intros X P.
    rewrite pad_long.
    + eexists. split; [reflexivity|exact P].
    + apply padded_digits_length in P. cbn [String.length]. lia.
  - assert (Hu : 0 <= wrap_u64 v < 10 ^ (Z.of_nat 20 + 1) /\ wrap_u64 v = v).
    { rewrite wrap_u64_small by lia. change (10 ^ (Z.of_nat 20 + 1)) with 1000000000000000000000. lia. }
    destruct Hu as [Hu Eu].
    destruct (fmtInteger_loop_spec 20 (wrap_u64 v) EmptyString Hu)
      as (u' & ds & E & Hu' & Hd & Hval & Hl).
    rewrite E.
    replace (ds ++ EmptyString)%string with ds
      by (clear; induction ds as [|c ds IH]; [reflexivity|cbn; congruence]).
    rewrite Eu in Hval.
    pose proof (zero_fill_padded w v u' ds ltac:(lia) Hu' Hd Hval Hl) as P.
    rewrite pad_long; [exact P|].
    apply padded_digits_length in P. exact P.
Qed.

Lemma fmtC_ascii c :
  0 <= c < 128 -> fmt.fmtC c = String (char_of c) EmptyString.
Proof.
  intros H. unfold fmt.fmtC, utf8.MaxRune, utf8.AppendRune, utf8.rune1Max.
  destruct (Z.ltb_spec c 0); [lia|]. destruct (Z.gtb_spec c 1114111); [lia|].
  cbn [orb]. rewrite (Z.mod_small c 4294967296) by lia.
  destruct (Z.leb_spec c 127); [|lia].
  unfold of_bytes. cbn [map string_of_list_ascii]. f_equal.
  unfold char_of. rewrite Z.mod_mod by lia. reflexivity.
Qed.

Lemma decimal_of_nonneg bs :
  forall acc, forallb is_ascii_digit bs = true -> 0 <= acc ->
  0 <= decimal_of bs acc.
Proof.
  induction bs as [|b bs IH]; intros acc H Ha; [exact Ha|].
  cbn [forallb] in H. apply andb_prop in H. destruct H as [Hb H].
  cbn [decimal_of fold_left]. fold (decimal_of bs (10 * acc + (b - 48))).
  apply IH; [exact H|].
  unfold is_ascii_digit in Hb. rewrite andb_true_iff, !Z.leb_le in Hb. lia.
Qed.

(** A number below [10 ^ w] zero-padded to [w] digits has exactly [w]. *)
Lemma padded_digits_exact w n s :
  padded_digits w n s -> 0 <= w -> n < 10 ^ w ->
  Z.of_nat (String.length s) = w.
Proof.
  intros (Hd & Hv & [Hl|[Hl Hh]]) Hw Hn; [exact Hl|]. exfalso.
  destruct s as [|c s]; [cbn in Hl; lia|].
  unfold all_digits in Hd. unfold decimal_value in Hv.
  rewrite bytes_String in Hd, Hv, Hh. cbn [hd] in Hh.
  cbn [forallb] in Hd. apply andb_prop in Hd. destruct Hd as [Hc Hd].
  cbn [decimal_of fold_left] in Hv.
  fold (decimal_of (bytes s) (10 * 0 + (byte_of c - 48))) in Hv.
  rewrite decimal_of_acc in Hv. rewrite length_bytes in Hv.
  pose proof (decimal_of_nonneg (bytes s) 0 Hd ltac:(lia)) as Hp.
  unfold is_ascii_digit in Hc. rewrite andb_true_iff, !Z.leb_le in Hc.
  cbn [String.length] in Hl.
  assert (Hpow : 10 ^ w <= 10 ^ Z.of_nat (String.length s))
    by (apply Z.pow_le_mono_r; lia).
  assert (Hq : 0 < 10 ^ w) by (apply Z.pow_pos_nonneg; lia).
  revert Hv Hp Hpow Hn Hq.
  generalize (decimal_of (bytes s) 0) (10 ^ Z.of_nat (String.length s))
             (10 ^ w).
  intros V P Q Hv Hp Hpow Hn Hq. nia.
Qed.

(** [%0<w>d] of a number of at most [w] digits: exactly [w] digits that
    denote it. *)
Lemma fmt0d_exact w n :
  2 <= w -> 0 <= n < 10 ^ w -> n < 9223372036854775808 ->
  String.length (fmt.fmt0d w n) = Z.to_nat w
  /\ all_digits (fmt.fmt0d w n) = true
  /\ decimal_value (fmt.fmt0d w n) = n.
Proof.
  intros Hw Hn Hb.
  pose proof (fmt0d_zero_padded w n Hw ltac:(lia)) as Z.
  unfold zero_padded in Z. destruct (Z.ltb_spec n 0); [lia|].
  pose proof (padded_digits_exact w n _ Z ltac:(lia) ltac:(lia)) as L.
  destruct Z as (A & B & _). split; [lia|]. auto.
Qed.

(** C7, as stated, fails on set flags outside 1 to 8 digits, which
    NewYMDFlag makes: for a time in year -6 the stored value is -58769 and
    the path is "-005/-87/-69", each field with a sign; for a time in year
    10000 the path is "10000/01/01", the year in 5 digits.  Neither is 4
    digits, the separator, 2 digits, the separator, and 2 digits. *)
Lemma FormatDirPath_not_YYYY_MM_DD :
  (IsZero (NewYMDFlag (time.Date (- 6) 12 31 0 0 0 0 time.UTC)) = false
   /\ FormatDirPath (NewYMDFlag (time.Date (- 6) 12 31 0 0 0 0 time.UTC)) 47
      = "-005/-87/-69"%string
   /\ ~ (exists Y M D,
          FormatDirPath (NewYMDFlag (time.Date (- 6) 12 31 0 0 0 0 time.UTC)) 47
          = (Y ++ "/" ++ M ++ "/" ++ D)%string
          /\ String.length Y = 4%nat /\ String.length M = 2%nat
          /\ String.length D = 2%nat))
  /\ (IsZero (NewYMDFlag (time.Date 10000 1 1 0 0 0 0 time.UTC)) = false
      /\ FormatDirPath (NewYMDFlag (time.Date 10000 1 1 0 0 0 0 time.UTC)) 47
         = "10000/01/01"%string
      /\ ~ (exists Y M D,
             FormatDirPath (NewYMDFlag (time.Date 10000 1 1 0 0 0 0 time.UTC)) 47
             = (Y ++ "/" ++ M ++ "/" ++ D)%string
             /\ String.length Y = 4%nat /\ String.length M = 2%nat
             /\ String.length D = 2%nat)).
Proof.
  assert (A : FormatDirPath
                (NewYMDFlag (time.Date (- 6) 12 31 0 0 0 0 time.UTC)) 47
              = "-005/-87/-69"%string) by (vm_compute; reflexivity).
  assert (B : FormatDirPath
                (NewYMDFlag (time.Date 10000 1 1 0 0 0 0 time.UTC)) 47
              = "10000/01/01"%string) by (vm_compute; reflexivity).
  assert (L : forall Y M D,
             String.length Y = 4%nat -> String.length M = 2%nat ->
             String.length D = 2%nat ->
             String.length (Y ++ "/" ++ M ++ "/" ++ D)%string = 10%nat).
  { intros Y M D HY HM HD. rewrite length_app. cbn [append String.length].
    rewrite length_app. cbn [append String.length]. lia. }
  rewrite A, B. split; (split; [vm_compute; reflexivity|]);
    (split; [reflexivity|]);
    intros (Y & M & D & E & HY & HM & HD);
    apply (f_equal String.length) in E;
    rewrite (L Y M D HY HM HD) in E; discriminate E.
Qed.

(** C7 (amended): on an unset flag FormatDirPath returns the empty string
    (it takes the flag by value and reads no clock); on a flag whose
    stored value has 1 to 8 digits it returns the year in exactly 4
    digits, zero-padded, the separator, the month in exactly 2 digits, the
    separator, and the day in exactly 2 digits, year, month and day being
    value / 10000, (value % 10000) / 100 and value % 100 and the separator
    being written as %c writes it (its UTF-8 encoding, the byte itself for
    ASCII, that of U+FFFD for a surrogate); for 20220102 and '/' that is
    "2022/01/02". *)
Theorem FormatDirPath_in_range ymd separator :
  (yyyymmdd ymd = 0 -> FormatDirPath ymd separator = EmptyString)
  /\ (0 < yyyymmdd ymd <= 99999999 ->
      exists Y M D,
        FormatDirPath ymd separator
        = (Y ++ fmt.fmtC separator ++ M ++ fmt.fmtC separator ++ D)%string
        /\ String.length Y = 4%nat /\ String.length M = 2%nat
        /\ String.length D = 2%nat
        /\ all_digits Y = true /\ all_digits M = true /\ all_digits D = true
        /\ decimal_value Y = year_of (yyyymmdd ymd)
        /\ decimal_value M = month_of (yyyymmdd ymd)
        /\ decimal_value D = day_of (yyyymmdd ymd)
        /\ AsYearMonthDay ymd
           = (year_of (yyyymmdd ymd), month_of (yyyymmdd ymd),
              day_of (yyyymmdd ymd)))
  /\ (0 <= separator < 128 ->
      fmt.fmtC separator = String (char_of separator) EmptyString)
  /\ FormatDirPath (mkYMDFlag 20220102) 47 = "2022/01/02"%string
  /\ FormatDirPath (mkYMDFlag 0) 47 = EmptyString
  /\ (FormatDirPath (mkYMDFlag 101) 45 = "0000-01-01"%string
      /\ FormatDirPath (mkYMDFlag 1) 45 = "0000-00-01"%string
      /\ FormatDirPath (mkYMDFlag 99999999) 45 = "9999-99-99"%string
      /\ bytes (FormatDirPath (mkYMDFlag 20220102) 233)
         = [50; 48; 50; 50; 195; 169; 48; 49; 195; 169; 48; 50]
      /\ bytes (FormatDirPath (mkYMDFlag 20220102) 8364)
         = [50; 48; 50; 50; 226; 130; 172; 48; 49; 226; 130; 172; 48; 50]
      /\ bytes (FormatDirPath (mkYMDFlag 20220102) 128512)
         = [50; 48; 50; 50; 240; 159; 152; 128; 48; 49; 240; 159; 152; 128;
            48; 50]
      /\ bytes (FormatDirPath (mkYMDFlag 20220102) 55296)
         = [50; 48; 50; 50; 239; 191; 189; 48; 49; 239; 191; 189; 48; 50]).
Proof.
  split; [|split; [|split; [|split; [|split]]]].
  - intros H. unfold FormatDirPath, IsZero. rewrite H. reflexivity.
  - intros Hv.
    destruct (decomposition_range (yyyymmdd ymd) ltac:(lia))
      as (Hy & Hm & Hd & _).
    destruct (fmt0d_exact 4 (year_of (yyyymmdd ymd)) ltac:(lia)
                ltac:(change (10 ^ 4) with 10000; lia) ltac:(lia))
      as (LY & DY & VY).
    destruct (fmt0d_exact 2 (month_of (yyyymmdd ymd)) ltac:(lia)
                ltac:(change (10 ^ 2) with 100; lia) ltac:(lia))
      as (LM & DM & VM).
    destruct (fmt0d_exact 2 (day_of (yyyymmdd ymd)) ltac:(lia)
                ltac:(change (10 ^ 2) with 100; lia) ltac:(lia))
      as (LD & DD & VD).
    assert (EA : AsYearMonthDay ymd
                 = (year_of (yyyymmdd ymd), month_of (yyyymmdd ymd),
                    day_of (yyyymmdd ymd))).
    { unfold AsYearMonthDay, IsZero.
      destruct (Z.eqb_spec (yyyymmdd ymd) 0); [lia|].
      destruct (decomposition_pos (yyyymmdd ymd) ltac:(lia))
        as (-> & -> & ->).
      reflexivity. }
    exists (fmt.fmt0d 4 (year_of (yyyymmdd ymd))),
           (fmt.fmt0d 2 (month_of (yyyymmdd ymd))),
           (fmt.fmt0d 2 (day_of (yyyymmdd ymd))).
    split.
    { unfold FormatDirPath. rewrite EA. unfold IsZero.
      destruct (Z.eqb_spec (yyyymmdd ymd) 0); [lia|]. reflexivity. }
    repeat (split; [assumption|]). exact EA.
  - apply fmtC_ascii.
  - vm_compute. reflexivity.
  - reflexivity.
  - repeat split; vm_compute; reflexivity.
Qed.

Lemma FormatDirPath_in_range_witness :
  exists Y M D,
    FormatDirPath (mkYMDFlag 20201231) 8364
    = (Y ++ fmt.fmtC 8364 ++ M ++ fmt.fmtC 8364 ++ D)%string
    /\ String.length Y = 4%nat /\ String.length M = 2%nat
    /\ String.length D = 2%nat
    /\ all_digits Y = true /\ all_digits M = true /\ all_digits D = true
    /\ decimal_value Y = year_of (yyyymmdd (mkYMDFlag 20201231))
    /\ decimal_value M = month_of (yyyymmdd (mkYMDFlag 20201231))
    /\ decimal_value D = day_of (yyyymmdd (mkYMDFlag 20201231))
    /\ AsYearMonthDay (mkYMDFlag 20201231)
       = (year_of (yyyymmdd (mkYMDFlag 20201231)),
          month_of (yyyymmdd (mkYMDFlag 20201231)),
          day_of (yyyymmdd (mkYMDFlag 20201231))).
Proof.
  destruct (FormatDirPath_in_range (mkYMDFlag 20201231) 8364) as (_ & H & _).
  apply H. cbn. lia.
Defined.

(** The text of [Itoa] has 8 characters only from 10000000 on. *)
Lemma Itoa_length v :
  0 < v <= 99999999 ->
  (String.length (strconv.Itoa v) = 8%nat <-> 10000000 <= v).
Proof.
  intros Hv. unfold strconv.Itoa, strconv.small.
  destruct (Z.leb_spec 0 v); [|lia]. cbn [andb].
  destruct (Z.ltb_spec v 100) as [S|S].
  - destruct (Z.ltb_spec v 10); cbn [String.length]; split; intros; (lia || discriminate).
  - unfold strconv.formatBits. rewrite (wrap_u64_small v) by lia.
    destruct (Z.ltb_spec v 0); [lia|].
    cbn [strconv.formatBits_loop].
    repeat match goal with
           | |- context [if ?a >=? ?b then _ else _] =>
               destruct (Z.geb_spec a b)
           end;
      cbn [String.length]; split; intros E; try discriminate E;
      try (exfalso; Z.div_mod_to_equations; lia);
      try reflexivity; try (Z.div_mod_to_equations; lia).
Qed.

(** C3: AsYMDString writes the stored value with strconv.Itoa, which does
    not pad.  The value 9990101 (the date 0999-01-01) passes validation,
    can be stored by NewYMDFlagFromInt or by Set("09990101"), and comes
    out as the 7 characters "9990101", which Set does not take back; the
    unset flag gives the empty string and 20220102 its 8 digits. *)
Theorem AsYMDString_drops_leading_zeros Digit :
  ValidateYMD time.UTC 9990101 = None
  /\ NewYMDFlagFromInt time.UTC 9990101 = (mkYMDFlag 9990101, None)
  /\ Set_ time.UTC Digit "09990101" (mkYMDFlag 0) = (None, mkYMDFlag 9990101)
  /\ AsYMDString (mkYMDFlag 9990101) = "9990101"%string
  /\ String.length (AsYMDString (mkYMDFlag 9990101)) = 7%nat
  /\ fst (String_ (mkYMDFlag 9990101)) = "9990101"%string
  /\ StringToYMD time.UTC Digit "9990101" = (0, Some ErrFormat)
  /\ AsYMDString (mkYMDFlag 0) = EmptyString
  /\ AsYMDString (mkYMDFlag 20220102) = "20220102"%string.
Proof. vm_compute. repeat split. Qed.

(** Within the range of the data model, AsYMDString has 8 characters
    exactly for the values from 10000000 on, that is for years from 1000. *)
Lemma AsYMDString_length ymd :
  0 < yyyymmdd ymd <= 99999999 ->
  (String.length (AsYMDString ymd) = 8%nat <-> 10000000 <= yyyymmdd ymd).
Proof.
  intros H. unfold AsYMDString.
  destruct (Z.eqb_spec (yyyymmdd ymd) 0); [lia|].
  apply Itoa_length. exact H.
Qed.

(** * Further properties of the package *)

(** ** Encoding a time *)

Lemma encoded_nonzero y m d :
  1 <= m <= 12 -> 1 <= d <= 31 -> 10000 * y + 100 * m + d <> 0.
Proof. intros Hm Hd. lia. Qed.

(** The fields of a date are read back from its encoding by floor
    division, whatever the sign of the year. *)
Lemma encoded_fields y m d :
  1 <= m <= 12 -> 1 <= d <= 31 ->
  year_of (10000 * y + 100 * m + d) = y
  /\ month_of (10000 * y + 100 * m + d) = m
  /\ day_of (10000 * y + 100 * m + d) = d.
Proof.
  intros Hm Hd. unfold year_of, month_of, day_of.
  Z.div_mod_to_equations. lia.
Qed.

Lemma TimeToYMD_zero_iff t : TimeToYMD t = 0 <-> time.IsZero t = true.
Proof.
  destruct (time.IsZero t) eqn:Z.
  - unfold TimeToYMD. rewrite Z. tauto.
  - rewrite TimeToYMD_nonzero by exact Z.
    destruct (Time_fields_range t) as (Hm & Hd & _). revert Hm Hd.
    generalize (time.Year t) (time.Month t) (time.Day t).
    intros y m d Hm Hd. split; [lia|discriminate].
Qed.

(** The encoding of a time of a year from 0 on: positive, in 8 digits up
    to year 9999, and decoding to the fields of the time, which form a real
    date. *)
Lemma TimeToYMD_decodes t :
  time.IsZero t = false -> 0 <= time.Year t ->
  0 < TimeToYMD t
  /\ (time.Year t <= 9999 -> TimeToYMD t <= 99999999)
  /\ year_of (TimeToYMD t) = time.Year t
  /\ month_of (TimeToYMD t) = time.Month t
  /\ day_of (TimeToYMD t) = time.Day t
  /\ valid_ymd (TimeToYMD t) = true.
Proof.
  intros Z Hy. rewrite TimeToYMD_nonzero by exact Z.
  destruct (Time_real_date t) as [Hr _].
  destruct (Time_fields_range t) as (Hm & Hd & _).
  unfold valid_ymd. revert Hy Hr Hm Hd.
  generalize (time.Year t) (time.Month t) (time.Day t).
  intros y m d Hy Hr Hm Hd.
  destruct (encoded_fields y m d Hm Hd) as (-> & -> & ->).
  repeat split; try lia. exact Hr.
Qed.

Lemma IsZero_NewYMDFlag t : IsZero (NewYMDFlag t) = time.IsZero t.
Proof.
  unfold IsZero, NewYMDFlag. cbn [yyyymmdd].
  destruct (time.IsZero t) eqn:Z.
  - apply Z.eqb_eq. apply TimeToYMD_zero_iff. exact Z.
  - apply Z.eqb_neq. intros E. apply TimeToYMD_zero_iff in E. congruence.
Qed.

(** X1: no time but the zero Time encodes to 0, so a flag made from a time
    is unset exactly when the time is the zero Time. *)
Theorem NewYMDFlag_unset_iff_zero_time t :
  (TimeToYMD t = 0 <-> time.IsZero t = true)
  /\ IsZero (NewYMDFlag t) = time.IsZero t.
Proof. split; [apply TimeToYMD_zero_iff|apply IsZero_NewYMDFlag]. Qed.

Lemma NewYMDFlag_unset_iff_zero_time_witness :
  time.IsZero (time.Date 1 1 1 0 0 0 0 time.UTC) = true.
Proof.
  apply (proj1 (proj1 (NewYMDFlag_unset_iff_zero_time
                         (time.Date 1 1 1 0 0 0 0 time.UTC)))).
  vm_compute. reflexivity.
Defined.

(** X2: AsYearMonthDay of the flag made from a time gives back the year,
    month and day of the time, for years from 0 on; for the zero Time it
    gives (0, 0, 0). *)
Theorem AsYearMonthDay_NewYMDFlag t :
  (time.IsZero t = true -> AsYearMonthDay (NewYMDFlag t) = (0, 0, 0))
  /\ (time.IsZero t = false -> 0 <= time.Year t ->
      AsYearMonthDay (NewYMDFlag t)
      = (time.Year t, time.Month t, time.Day t)).
Proof.
  split.
  - intros Z. unfold AsYearMonthDay.
    rewrite IsZero_NewYMDFlag, Z. reflexivity.
  - intros Z Hy. unfold AsYearMonthDay.
    rewrite IsZero_NewYMDFlag, Z.
    unfold NewYMDFlag. cbn [yyyymmdd].
    destruct (TimeToYMD_decodes t Z Hy) as (Hp & _ & Ey & Em & Ed & _).
    destruct (decomposition_pos (TimeToYMD t) ltac:(lia)) as (-> & -> & ->).
    rewrite Ey, Em, Ed. reflexivity.
Qed.

Lemma AsYearMonthDay_NewYMDFlag_witness :
  AsYearMonthDay (NewYMDFlag (time.Date 2022 1 2 3 4 5 6 time.UTC))
  = (time.Year (time.Date 2022 1 2 3 4 5 6 time.UTC),
     time.Month (time.Date 2022 1 2 3 4 5 6 time.UTC),
     time.Day (time.Date 2022 1 2 3 4 5 6 time.UTC)).
Proof.
  apply (proj2 (AsYearMonthDay_NewYMDFlag
                  (time.Date 2022 1 2 3 4 5 6 time.UTC))).
  - vm_compute. reflexivity.
  - vm_compute. discriminate.
Defined.

(** X3: two times other than the zero Time have the same encoding exactly
    when they show the same year, month and day, each in its own
    location. *)
Theorem TimeToYMD_same_iff_same_date t1 t2 :
  time.IsZero t1 = false -> time.IsZero t2 = false ->
  (TimeToYMD t1 = TimeToYMD t2
   <-> (time.Year t1 = time.Year t2 /\ time.Month t1 = time.Month t2
        /\ time.Day t1 = time.Day t2)).
Proof.
  intros Z1 Z2. rewrite !TimeToYMD_nonzero by assumption.
  destruct (Time_fields_range t1) as (Hm1 & Hd1 & _).
  destruct (Time_fields_range t2) as (Hm2 & Hd2 & _).
  revert Hm1 Hd1 Hm2 Hd2.
  generalize (time.Year t1) (time.Month t1) (time.Day t1)
             (time.Year t2) (time.Month t2) (time.Day t2).
  intros y1 m1 d1 y2 m2 d2 Hm1 Hd1 Hm2 Hd2. split.
  - intros E.
    destruct (encoded_fields y1 m1 d1 Hm1 Hd1) as (A1 & B1 & C1).
    destruct (encoded_fields y2 m2 d2 Hm2 Hd2) as (A2 & B2 & C2).
    rewrite E in A1, B1, C1. rewrite A1 in A2. rewrite B1 in B2.
    rewrite C1 in C2. auto.
  - intros (-> & -> & ->). reflexivity.
Qed.

Lemma TimeToYMD_same_iff_same_date_witness :
  TimeToYMD (time.Date 2022 1 2 23 0 0 0 time.UTC)
  = TimeToYMD (time.Date 2022 1 2 1 30 0 0 (time.FixedZone 3600)).
Proof.
  apply TimeToYMD_same_iff_same_date.
  - vm_compute. reflexivity.
  - vm_compute. reflexivity.
  - vm_compute. repeat split.
Defined.

(** ** Validation *)

(** Within 8 digits [ValidateYMD] compares the fields [time.Date] reads
    back in the local zone, and has one error for a mismatch. *)
Lemma ValidateYMD_in_range Local n :
  1 <= n <= 99999999 ->
  ValidateYMD Local n
  = if (year_of n
        =? time.Year (time.Date (year_of n) (month_of n) (day_of n)
                        0 0 0 0 Local))
       && (month_of n
           =? time.Month (time.Date (year_of n) (month_of n) (day_of n)
                            0 0 0 0 Local))
       && (day_of n
           =? time.Day (time.Date (year_of n) (month_of n) (day_of n)
                          0 0 0 0 Local))
    then None else Some ErrBadOrUnnormalized.
Proof.
  intros Hn. unfold ValidateYMD.
  destruct (Z.eqb_spec n 0); [lia|].
  destruct (Z.ltb_spec n 0); [lia|].
  destruct (Z.gtb_spec n 99999999); [lia|].
  destruct (decomposition_pos n ltac:(lia)) as (-> & -> & ->).
  destruct (_ =? _); destruct (_ =? _); destruct (_ =? _); reflexivity.
Qed.

(** X4: the errors of ValidateYMD, in every local zone: a negative value
    is "negative", a value above 99999999 is "more than 8 digits", and a
    value of 1 to 8 digits that does not decode to a real calendar date is
    "bad or unnormalized"; no local zone makes it accept such a value. *)
Theorem ValidateYMD_error_kinds Local n :
  (n < 0 -> ValidateYMD Local n = Some ErrNegative)
  /\ (99999999 < n -> ValidateYMD Local n = Some ErrMoreThan8Digits)
  /\ (1 <= n <= 99999999 -> valid_ymd n = false ->
      ValidateYMD Local n = Some ErrBadOrUnnormalized).
Proof.
  destruct (ValidateYMD_out_of_range Local n) as [H1 H2].
  split; [exact H1|]. split; [exact H2|].
  intros Hn Hv.
  destruct (ValidateYMD Local n) as [e|] eqn:V.
  - rewrite ValidateYMD_in_range in V by exact Hn.
    destruct (_ && _); [discriminate|symmetry; exact V].
  - destruct (ValidateYMD_sound Local n V) as [E|[_ E]]; [lia|congruence].
Qed.

Lemma ValidateYMD_error_kinds_witness :
  ValidateYMD Havana (- 20220101) = Some ErrNegative
  /\ ValidateYMD Havana 120220101 = Some ErrMoreThan8Digits
  /\ ValidateYMD Havana 20230229 = Some ErrBadOrUnnormalized.
Proof.
  destruct (ValidateYMD_error_kinds Havana (- 20220101)) as (H1 & _).
  destruct (ValidateYMD_error_kinds Havana 120220101) as (_ & H2 & _).
  destruct (ValidateYMD_error_kinds Havana 20230229) as (_ & _ & H3).
  split; [apply H1; lia|]. split; [apply H2; lia|].
  apply H3; [lia|vm_compute; reflexivity].
Defined.

(** X5: within 8 digits, and unless the time built is the zero Time,
    ValidateYMD accepts a value exactly when the value comes back from
    YMDToTime in the local zone followed by TimeToYMD. *)
Theorem ValidateYMD_iff_local_roundtrip Local n :
  1 <= n <= 99999999 ->
  time.IsZero (YMDToTime Local n None) = false ->
  (ValidateYMD Local n = None
   <-> TimeToYMD (YMDToTime Local n None) = n).
Proof.
  intros Hn Z.
  assert (E : YMDToTime Local n None
              = time.Date (year_of n) (month_of n) (day_of n) 0 0 0 0 Local).
  { unfold YMDToTime. destruct (Z.eqb_spec n 0); [lia|].
    destruct (decomposition_pos n ltac:(lia)) as (-> & -> & ->).
    reflexivity. }
  rewrite ValidateYMD_in_range by exact Hn.
  rewrite E in *. rewrite TimeToYMD_nonzero by exact Z.
  destruct (decomposition_range n ltac:(lia)) as (_ & _ & _ & En).
  destruct (Time_fields_range
              (time.Date (year_of n) (month_of n) (day_of n) 0 0 0 0 Local))
    as (Hm & Hd & _).
  revert Hm Hd.
  generalize (time.Year (time.Date (year_of n) (month_of n) (day_of n) 0 0 0 0 Local))
             (time.Month (time.Date (year_of n) (month_of n) (day_of n) 0 0 0 0 Local))
             (time.Day (time.Date (year_of n) (month_of n) (day_of n) 0 0 0 0 Local)).
  intros y m d Hm Hd. split.
  - destruct (Z.eqb_spec (year_of n) y) as [<-|]; [|discriminate].
    destruct (Z.eqb_spec (month_of n) m) as [<-|]; [|discriminate].
    destruct (Z.eqb_spec (day_of n) d) as [<-|]; [|discriminate].
    intros _. lia.
  - intros R. destruct (encoded_fields y m d Hm Hd) as (A & B & C).
    rewrite R in A, B, C. rewrite A, B, C, !Z.eqb_refl. reflexivity.
Qed.

Lemma ValidateYMD_iff_local_roundtrip_witness :
  ValidateYMD Havana 20240310 = None
  <-> TimeToYMD (YMDToTime Havana 20240310 None) = 20240310.
Proof.
  apply ValidateYMD_iff_local_roundtrip.
  - lia.
  - vm_compute. reflexivity.
Defined.

(** X6: the encoding of a time of a year in [0, 9999] passes ValidateYMD
    whenever the local zone does not skip the midnight of its date, and
    NewYMDFlagFromInt then makes the flag NewYMDFlag makes. *)
Theorem ValidateYMD_accepts_encoded_time Local t :
  time.IsZero t = false -> 0 <= time.Year t <= 9999 ->
  offsetInForce Local (time.Year t) (time.Month t) (time.Day t) = true ->
  ValidateYMD Local (TimeToYMD t) = None
  /\ NewYMDFlagFromInt Local (TimeToYMD t) = (NewYMDFlag t, None).
Proof.
  intros Z Hy Hin.
  destruct (TimeToYMD_decodes t Z (proj1 Hy)) as (Hp & Hr & Ey & Em & Ed & Hv).
  assert (V : ValidateYMD Local (TimeToYMD t) = None).
  { apply ValidateYMD_complete; [lia|exact Hv|].
    rewrite Ey, Em, Ed. exact Hin. }
  split; [exact V|].
  unfold NewYMDFlagFromInt. rewrite V. reflexivity.
Qed.

Lemma ValidateYMD_accepts_encoded_time_witness :
  ValidateYMD Havana
    (TimeToYMD (time.Date 2024 3 11 17 30 0 0 time.UTC)) = None
  /\ NewYMDFlagFromInt Havana
       (TimeToYMD (time.Date 2024 3 11 17 30 0 0 time.UTC))
     = (NewYMDFlag (time.Date 2024 3 11 17 30 0 0 time.UTC), None).
Proof.
  apply ValidateYMD_accepts_encoded_time.
  - vm_compute. reflexivity.
  - vm_compute. split; discriminate.
  - vm_compute. reflexivity.
Defined.

(** ** The calendar invariant *)

Lemma StringToYMD_ok_validated Local Digit str v :
  StringToYMD Local Digit str = (v, None) -> ValidateYMD Local v = None.
Proof.
  unfold StringToYMD.
  destruct (String.eqb str EmptyString); [intros E; inversion E; reflexivity|].
  destruct (_ || _); [discriminate|].
  destruct (strconv.Atoi str) as [n [e|]]; [discriminate|].
  destruct (ValidateYMD Local n) eqn:V; [discriminate|].
  intros E. inversion E. subst v. exact V.
Qed.

Lemma holds_real_date_encoded t :
  year_fits t -> holds_real_date (NewYMDFlag t).
Proof.
  unfold year_fits, holds_real_date, NewYMDFlag. cbn [yyyymmdd].
  destruct (time.IsZero t) eqn:Z.
  - intros _. left. apply TimeToYMD_zero_iff. exact Z.
  - intros [H|H]; [discriminate|]. right.
    destruct (TimeToYMD_decodes t Z (proj1 H)) as (Hp & Hr & _ & _ & _ & Hv).
    split; [|exact Hv]. specialize (Hr (proj2 H)). lia.
Qed.

(** X7: a flag is unset or holds a value of 1 to 8 digits that decodes to
    a real calendar date, in every local zone, when it comes from
    NewYMDFlagFromInt or from a Set that returned no error; a failing Set,
    and UpdateNilToNow and AsTimeWithLoc with a clock in a year of 0 to
    9999, keep a flag so. *)
Theorem flag_holds_real_date :
  (forall Local i, holds_real_date (fst (NewYMDFlagFromInt Local i)))
  /\ (forall Local Digit value ymd,
         fst (Set_ Local Digit value ymd) = None ->
         holds_real_date (snd (Set_ Local Digit value ymd)))
  /\ (forall Local Digit value ymd,
         holds_real_date ymd ->
         holds_real_date (snd (Set_ Local Digit value ymd)))
  /\ (forall now location ymd,
         holds_real_date ymd -> year_fits (clockIn now location) ->
         holds_real_date (snd (UpdateNilToNow now location ymd)))
  /\ (forall Local now location ymd,
         holds_real_date ymd ->
         year_fits (time.In now (resolve Local location)) ->
         holds_real_date (snd (AsTimeWithLoc Local now location ymd))).
Proof.
  assert (HV : forall Local v,
             ValidateYMD Local v = None -> holds_real_date (mkYMDFlag v)).
  { intros Local v V. unfold holds_real_date. cbn [yyyymmdd].
    destruct (ValidateYMD_sound Local v V) as [E|E]; auto. }
  assert (HU : forall now location ymd,
             holds_real_date ymd -> year_fits (clockIn now location) ->
             holds_real_date (snd (UpdateNilToNow now location ymd))).
  { intros now location ymd H Hf. unfold UpdateNilToNow, bind, get, ret, put.
    destruct (yyyymmdd ymd =? 0); cbn [negb snd]; [|exact H].
    apply (holds_real_date_encoded (clockIn now location)). exact Hf. }
  split; [|split; [|split; [|split]]].
  - intros Local i. unfold NewYMDFlagFromInt.
    destruct (ValidateYMD Local i) eqn:V; cbn [fst].
    + left. reflexivity.
    + apply (HV Local). exact V.
  - intros Local Digit value ymd. unfold Set_.
    destruct (StringToYMD Local Digit value) as [v [e|]] eqn:S.
    + cbn. discriminate.
    + intros _. cbn. apply (HV Local).
      apply (StringToYMD_ok_validated _ _ _ _ S).
  - intros Local Digit value ymd H. unfold Set_.
    destruct (StringToYMD Local Digit value) as [v [e|]] eqn:S.
    + exact H.
    + cbn. apply (HV Local). apply (StringToYMD_ok_validated _ _ _ _ S).
  - exact HU.
  - intros Local now location ymd H Hf.
    unfold AsTimeWithLoc. fold (resolve Local location).
    specialize (HU now (Some (resolve Local location)) ymd H Hf).
    revert HU. unfold bind, get, ret.
    destruct (UpdateNilToNow now (Some (resolve Local location)) ymd)
      as [u ymd'].
    cbn [snd]. auto.
Qed.

Lemma flag_holds_real_date_witness :
  holds_real_date
    (snd (Set_ Havana (fun _ => false) "20240229" (mkYMDFlag 0)))
  /\ holds_real_date
       (snd (AsTimeWithLoc Havana (time.Date 2026 10 31 12 0 0 0 time.UTC)
               None (mkYMDFlag 0))).
Proof.
  destruct flag_holds_real_date as (_ & HS & _ & _ & HA). split.
  - apply HS. vm_compute. reflexivity.
  - apply HA.
    + left. reflexivity.
    + right. vm_compute. split; discriminate.
Defined.

(** ** Reading the flag as a time *)

(** X8: on a flag that holds a real date of 8 digits or fewer, AsTimeWithLoc
    reads no clock and changes nothing: it returns the time in the
    location (time.Local for nil) that shows the stored year, month and
    day at 00:00:00, when the location does not skip that midnight. *)
Theorem AsTimeWithLoc_set_flag Local now location ymd :
  0 < yyyymmdd ymd <= 99999999 -> valid_ymd (yyyymmdd ymd) = true ->
  offsetInForce (resolve Local location) (year_of (yyyymmdd ymd))
    (month_of (yyyymmdd ymd)) (day_of (yyyymmdd ymd)) = true ->
  snd (AsTimeWithLoc Local now location ymd) = ymd
  /\ fst (AsTimeWithLoc Local now location ymd)
     = YMDToTime Local (yyyymmdd ymd) location
  /\ time.loc (fst (AsTimeWithLoc Local now location ymd))
     = resolve Local location
  /\ time.Year (fst (AsTimeWithLoc Local now location ymd))
     = year_of (yyyymmdd ymd)
  /\ time.Month (fst (AsTimeWithLoc Local now location ymd))
     = month_of (yyyymmdd ymd)
  /\ time.Day (fst (AsTimeWithLoc Local now location ymd))
     = day_of (yyyymmdd ymd)
  /\ time.Clock (fst (AsTimeWithLoc Local now location ymd)) = (0, 0, 0).
Proof.
  intros Hn Hv Hin.
  assert (E : AsTimeWithLoc Local now location ymd
              = (YMDToTime Local (yyyymmdd ymd) location, ymd)).
  { unfold AsTimeWithLoc, UpdateNilToNow, bind, get, ret.
    destruct (Z.eqb_spec (yyyymmdd ymd) 0); [lia|]. cbn [negb].
    unfold YMDToTime. destruct location; reflexivity. }
  rewrite E. cbn [fst snd].
  split; [reflexivity|]. split; [reflexivity|].
  rewrite YMDToTime_Date by lia.
  destruct (decomposition_range (yyyymmdd ymd) ltac:(lia)) as (Hy & _).
  destruct (Date_midnight (year_of (yyyymmdd ymd)) (month_of (yyyymmdd ymd))
              (day_of (yyyymmdd ymd)) (resolve Local location)
              ltac:(lia) Hv) as (Hl & _).
  split; [exact Hl|].
  apply Date_fields; [lia|exact Hv|exact Hin].
Qed.

Lemma AsTimeWithLoc_set_flag_witness :
  snd (AsTimeWithLoc time.UTC (time.Date 2026 10 31 12 0 0 0 time.UTC)
         (Some Havana) (mkYMDFlag 20200102))
  = mkYMDFlag 20200102.
Proof.
  apply AsTimeWithLoc_set_flag.
  - cbn. lia.
  - vm_compute. reflexivity.
  - vm_compute. reflexivity.
Defined.

(** X9: on an unset flag, with a clock that is not the zero Time and shows
    a year of 0 to 9999 in the location (time.Local for nil),
    AsTimeWithLoc stores the clock's date in that location and returns the
    time that shows that year, month and day at 00:00:00 there, when the
    location does not skip that midnight. *)
Theorem AsTimeWithLoc_unset_flag Local now location :
  time.IsZero now = false ->
  0 <= time.Year (time.In now (resolve Local location)) <= 9999 ->
  offsetInForce (resolve Local location)
    (time.Year (time.In now (resolve Local location)))
    (time.Month (time.In now (resolve Local location)))
    (time.Day (time.In now (resolve Local location))) = true ->
  snd (AsTimeWithLoc Local now location (mkYMDFlag 0))
  = NewYMDFlag (time.In now (resolve Local location))
  /\ IsZero (snd (AsTimeWithLoc Local now location (mkYMDFlag 0))) = false
  /\ time.Year (fst (AsTimeWithLoc Local now location (mkYMDFlag 0)))
     = time.Year (time.In now (resolve Local location))
  /\ time.Month (fst (AsTimeWithLoc Local now location (mkYMDFlag 0)))
     = time.Month (time.In now (resolve Local location))
  /\ time.Day (fst (AsTimeWithLoc Local now location (mkYMDFlag 0)))
     = time.Day (time.In now (resolve Local location))
  /\ time.Clock (fst (AsTimeWithLoc Local now location (mkYMDFlag 0)))
     = (0, 0, 0).
Proof.
  intros Z Hy Hin.
  set (l := resolve Local location) in *.
  assert (Z' : time.IsZero (time.In now l) = false) by exact Z.
  destruct (TimeToYMD_decodes (time.In now l) Z' (proj1 Hy))
    as (Hp & Hr & Ey & Em & Ed & Hv).
  specialize (Hr (proj2 Hy)).
  assert (E : AsTimeWithLoc Local now location (mkYMDFlag 0)
              = (YMDToTime Local (TimeToYMD (time.In now l)) (Some l),
                 NewYMDFlag (time.In now l))).
  { unfold AsTimeWithLoc. fold (resolve Local location). fold l.
    reflexivity. }
  rewrite E. cbn [fst snd].
  split; [reflexivity|].
  split; [rewrite IsZero_NewYMDFlag; exact Z'|].
  rewrite YMDToTime_Date by exact Hp.
  change (resolve Local (Some l)) with l.
  unfold valid_ymd in Hv. revert Hp Hr Hv. rewrite Ey, Em, Ed.
  revert Hy Hin.
  generalize (time.Year (time.In now l)) (time.Month (time.In now l))
             (time.Day (time.In now l)) (TimeToYMD (time.In now l)).
  intros y m d v Hy Hin Hp Hr Hv.
  destruct (Date_fields y m d l ltac:(lia) Hv Hin) as (A & B & C & D).
  auto.
Qed.

Lemma AsTimeWithLoc_unset_flag_witness :
  snd (AsTimeWithLoc Havana (time.Date 2026 10 31 3 0 0 0 time.UTC)
         None (mkYMDFlag 0))
  = NewYMDFlag (time.In (time.Date 2026 10 31 3 0 0 0 time.UTC) Havana).
Proof.
  apply (AsTimeWithLoc_unset_flag Havana
           (time.Date 2026 10 31 3 0 0 0 time.UTC) None).
  - vm_compute. reflexivity.
  - vm_compute. split; discriminate.
  - vm_compute. reflexivity.
Defined.

(** X10: the date is taken from the clock at most once: after
    UpdateNilToNow with a clock that is not the zero Time, a second
    UpdateNilToNow, with any clock and location, changes nothing. *)
Theorem UpdateNilToNow_at_most_once now1 loc1 now2 loc2 ymd :
  time.IsZero now1 = false ->
  snd (UpdateNilToNow now2 loc2 (snd (UpdateNilToNow now1 loc1 ymd)))
  = snd (UpdateNilToNow now1 loc1 ymd).
Proof.
  intros Z.
  assert (Hnz : yyyymmdd (snd (UpdateNilToNow now1 loc1 ymd)) <> 0).
  { unfold UpdateNilToNow, bind, get, ret, put.
    destruct (Z.eqb_spec (yyyymmdd ymd) 0) as [E|E]; cbn [negb snd yyyymmdd].
    - intros H. apply TimeToYMD_zero_iff in H.
      assert (Z1 : time.IsZero
                     (match loc1 with
                      | Some l => time.In now1 l
                      | None => now1
                      end) = time.IsZero now1)
        by (destruct loc1; reflexivity).
      congruence.
    - exact E. }
  revert Hnz. generalize (snd (UpdateNilToNow now1 loc1 ymd)) as y.
  intros y Hnz. unfold UpdateNilToNow, bind, get, ret.
  destruct (Z.eqb_spec (yyyymmdd y) 0); [contradiction|]. reflexivity.
Qed.

Lemma UpdateNilToNow_at_most_once_witness :
  snd (UpdateNilToNow (time.Date 2027 1 1 0 0 0 0 time.UTC) None
         (snd (UpdateNilToNow (time.Date 2026 10 31 12 0 0 0 time.UTC)
                 (Some Havana) (mkYMDFlag 0))))
  = snd (UpdateNilToNow (time.Date 2026 10 31 12 0 0 0 time.UTC)
           (Some Havana) (mkYMDFlag 0)).
Proof.
  apply UpdateNilToNow_at_most_once. vm_compute. reflexivity.
Defined.

(** ** The text of the flag *)

(** The base-10 loop of [formatBits]: it leaves the leading one or two
    digits in [us'] and puts the other digits [ds] before [a]. *)
Lemma formatBits_loop_spec fuel :
  forall us a,
  0 <= us < 100 ^ (Z.of_nat fuel + 1) ->
  exists us' ds,
    strconv.formatBits_loop fuel us a = (us', (ds ++ a)%string)
    /\ 0 <= us' < 100 /\ all_digits ds = true
    /\ us = us' * 10 ^ Z.of_nat (String.length ds) + decimal_value ds
    /\ (ds = EmptyString \/ 1 <= us').
Proof.
  induction fuel as [|fuel IH]; intros us a Hu.
  - exists us, EmptyString. cbn in *. repeat split; try lia. auto.
  - cbn [strconv.formatBits_loop].
    destruct (Z.geb_spec us 100) as [G|G].
    + set (q := us / 100). set (r := us mod 100).
      assert (Hq : 1 <= q /\ 0 <= r < 100 /\ us = 100 * q + r)
        by (subst q r; Z.div_mod_to_equations; lia).
      assert (Hr : 0 <= r / 10 <= 9 /\ 0 <= r mod 10 <= 9
                   /\ r = 10 * (r / 10) + r mod 10)
        by (Z.div_mod_to_equations; lia).
      assert (Hq' : 0 <= q < 100 ^ (Z.of_nat fuel + 1)).
      { replace (Z.of_nat (S fuel) + 1) with (Z.succ (Z.of_nat fuel + 1)) in Hu by lia.
        rewrite Z.pow_succ_r in Hu by lia. lia. }
      destruct (IH q (String (strconv.digit_char (r / 10))
                        (String (strconv.digit_char (r mod 10)) a)) Hq')
        as (us' & ds & E & Hu' & Hd & Hv & Hl).
      exists us',
        (ds ++ String (strconv.digit_char (r / 10))
                 (String (strconv.digit_char (r mod 10)) EmptyString))%string.
      split.
      { rewrite E. f_equal. clear. induction ds as [|c ds IHd]; [reflexivity|].
        cbn [append]. rewrite IHd. reflexivity. }
      split; [exact Hu'|]. split.
      { rewrite all_digits_app, Hd. cbn [andb]. unfold all_digits.
        rewrite !bytes_String. cbn [bytes forallb map list_ascii_of_string].
        rewrite !byte_of_digit_char by lia.
        unfold is_ascii_digit.
        rewrite !andb_true_r, !andb_true_iff, !Z.leb_le. lia. }
      split.
      { unfold decimal_value in *. rewrite bytes_app, decimal_of_app.
        rewrite !bytes_String.
        cbn [bytes map list_ascii_of_string decimal_of fold_left].
        rewrite !byte_of_digit_char by lia.
        rewrite length_app. cbn [String.length].
        replace (Z.of_nat (String.length ds + 2))
          with (Z.succ (Z.succ (Z.of_nat (String.length ds)))) by lia.
        rewrite !Z.pow_succ_r by lia.
        fold (decimal_of (bytes ds) 0).
        set (V := decimal_of (bytes ds) 0) in *.
        set (P := 10 ^ Z.of_nat (String.length ds)) in *.
        nia. }
      { right. destruct Hl as [->|Hl]; [|exact Hl].
        cbn in Hv. lia. }
    + exists us, EmptyString. cbn. repeat split; try lia. auto.
Qed.

(** [formatBits] on a positive number: its decimal digits, the first of
    which is not 0. *)
Lemma formatBits_digits u :
  1 <= u < 18446744073709551616 ->
  all_digits (strconv.formatBits u false) = true
  /\ decimal_value (strconv.formatBits u false) = u
  /\ hd 0 (bytes (strconv.formatBits u false)) <> 48.
Proof.
  intros Hu.
  assert (Hf : 0 <= u < 100 ^ (Z.of_nat 10 + 1)).
  { change (100 ^ (Z.of_nat 10 + 1)) with 10000000000000000000000. lia. }
  destruct (formatBits_loop_spec 10 u EmptyString Hf)
    as (us & ds & E & Hus & Hd & Hv & Hl).
  unfold strconv.formatBits. cbv beta iota zeta. rewrite E.
  replace (ds ++ EmptyString)%string with ds
    by (clear; induction ds as [|c ds IH]; [reflexivity|cbn; congruence]).
  assert (H1 : 1 <= us).
  { destruct Hl as [->|Hl]; [cbn in Hv; lia|exact Hl]. }
  assert (Hr : 0 <= us / 10 <= 9 /\ 0 <= us mod 10 <= 9
               /\ us = 10 * (us / 10) + us mod 10)
    by (Z.div_mod_to_equations; lia).
  unfold decimal_value in *.
  destruct (Z.geb_spec us 10) as [G|G].
  - split; [|split].
    + unfold all_digits. rewrite !bytes_String. cbn [forallb].
      rewrite !byte_of_digit_char by lia. fold (all_digits ds). rewrite Hd.
      unfold is_ascii_digit.
      rewrite !andb_true_r, !andb_true_iff, !Z.leb_le. lia.
    + rewrite !bytes_String. cbn [decimal_of fold_left].
      fold (decimal_of (bytes ds)
              (10 * (10 * 0 + (byte_of (strconv.digit_char (us / 10)) - 48))
               + (byte_of (strconv.digit_char (us mod 10)) - 48))).
      rewrite decimal_of_acc. rewrite !byte_of_digit_char by lia.
      rewrite length_bytes.
      set (V := decimal_of (bytes ds) 0) in *.
      set (P := 10 ^ Z.of_nat (String.length ds)) in *.
      nia.
    + rewrite bytes_String. cbn [hd]. rewrite byte_of_digit_char by lia.
      assert (1 <= us / 10) by (Z.div_mod_to_equations; lia). lia.
  - assert (Em : us mod 10 = us) by (Z.div_mod_to_equations; lia).
    split; [|split].
    + unfold all_digits. rewrite !bytes_String. cbn [forallb].
      rewrite !byte_of_digit_char by lia. fold (all_digits ds). rewrite Hd.
      unfold is_ascii_digit.
      rewrite !andb_true_r, !andb_true_iff, !Z.leb_le. lia.
    + rewrite !bytes_String. cbn [decimal_of fold_left].
      fold (decimal_of (bytes ds)
              (10 * 0 + (byte_of (strconv.digit_char (us mod 10)) - 48))).
      rewrite decimal_of_acc. rewrite !byte_of_digit_char by lia.
      rewrite length_bytes.
      set (V := decimal_of (bytes ds) 0) in *.
      set (P := 10 ^ Z.of_nat (String.length ds)) in *.
      nia.
    + rewrite bytes_String. cbn [hd]. rewrite byte_of_digit_char by lia.
      lia.
Qed.

(** With the sign, [formatBits] writes it before the digits of the
    negated number. *)
Lemma formatBits_neg u :
  strconv.formatBits u true
  = String "-"%char (strconv.formatBits (wrap_u64 (- u)) false).
Proof.
  unfold strconv.formatBits. cbv beta iota zeta.
  destruct (strconv.formatBits_loop 10 (wrap_u64 (- u)) EmptyString) as [us a].
  reflexivity.
Qed.

(** [Itoa] of a positive int: its decimal digits, without a leading 0. *)
Lemma Itoa_digits v :
  0 < v < 9223372036854775808 ->
  all_digits (strconv.Itoa v) = true
  /\ decimal_value (strconv.Itoa v) = v
  /\ hd 0 (bytes (strconv.Itoa v)) <> 48.
Proof.
  intros Hv. unfold strconv.Itoa.
  destruct (Z.leb_spec 0 v); [|lia]. cbn [andb].
  destruct (Z.ltb_spec v 100) as [S|S].
  - unfold strconv.small.
    assert (Hr : 0 <= v / 10 <= 9 /\ 0 <= v mod 10 <= 9
                 /\ v = 10 * (v / 10) + v mod 10)
      by (Z.div_mod_to_equations; lia).
    destruct (Z.ltb_spec v 10) as [T|T].
    + unfold all_digits, decimal_value. rewrite !bytes_String.
      cbn [bytes map list_ascii_of_string forallb decimal_of fold_left hd].
      rewrite !byte_of_digit_char by lia.
      unfold is_ascii_digit.
      rewrite !andb_true_r, !andb_true_iff, !Z.leb_le. lia.
    + unfold all_digits, decimal_value. rewrite !bytes_String.
      cbn [bytes map list_ascii_of_string forallb decimal_of fold_left hd].
      rewrite !byte_of_digit_char by lia.
      unfold is_ascii_digit.
      rewrite !andb_true_r, !andb_true_iff, !Z.leb_le. lia.
  - destruct (Z.ltb_spec v 0); [lia|].
    rewrite (wrap_u64_small v) by lia.
    apply formatBits_digits. lia.
Qed.

(** [Itoa] of a negative int: the sign, then the digits of its absolute
    value. *)
Lemma Itoa_negative v :
  - 9223372036854775808 <= v < 0 ->
  exists s, strconv.Itoa v = String "-"%char s
            /\ all_digits s = true /\ decimal_value s = - v.
Proof.
  intros Hv. unfold strconv.Itoa.
  destruct (Z.leb_spec 0 v); [lia|]. cbn [andb].
  destruct (Z.ltb_spec v 0); [|lia].
  rewrite formatBits_neg.
  assert (E : wrap_u64 (- wrap_u64 v) = - v).
  { unfold wrap_u64. Z.div_mod_to_equations. lia. }
  rewrite E.
  destruct (formatBits_digits (- v) ltac:(lia)) as (Hd & Hval & _).
  eexists. split; [reflexivity|]. split; assumption.
Qed.

(** X12: AsYMDString of a set flag is the stored value in decimal: for a
    positive value its digits, the first of which is not 0; for a negative
    value the sign and the digits of its absolute value. *)
Theorem AsYMDString_decimal ymd :
  (0 < yyyymmdd ymd < 9223372036854775808 ->
   all_digits (AsYMDString ymd) = true
   /\ decimal_value (AsYMDString ymd) = yyyymmdd ymd
   /\ hd 0 (bytes (AsYMDString ymd)) <> 48)
  /\ (- 9223372036854775808 <= yyyymmdd ymd < 0 ->
      exists s, AsYMDString ymd = String "-"%char s
                /\ all_digits s = true
                /\ decimal_value s = - yyyymmdd ymd).
Proof.
  split; intros H; unfold AsYMDString;
    (destruct (Z.eqb_spec (yyyymmdd ymd) 0); [lia|]).
  - apply Itoa_digits. exact H.
  - apply Itoa_negative. exact H.
Qed.

Lemma AsYMDString_decimal_witness :
  decimal_value (AsYMDString (mkYMDFlag 9990101)) = 9990101
  /\ exists s, AsYMDString (mkYMDFlag (- 9899)) = String "-"%char s
               /\ all_digits s = true /\ decimal_value s = 9899.
Proof.
  destruct (AsYMDString_decimal (mkYMDFlag 9990101)) as (H1 & _).
  destruct (AsYMDString_decimal (mkYMDFlag (- 9899))) as (_ & H2).
  split.
  - apply H1. cbn. lia.
  - apply H2. cbn. lia.
Defined.

Lemma StringToYMD_eight_digits Local Digit s :
  eight_ascii_digits s = true ->
  StringToYMD Local Digit s
  = match ValidateYMD Local (decimal_value s) with
    | None => (decimal_value s, None)
    | Some e => (0, Some (ErrValidateString e))
    end.
Proof.
  intros H. unfold StringToYMD.
  pose proof H as H'. unfold eight_ascii_digits in H'.
  rewrite andb_true_iff, Nat.eqb_eq in H'. destruct H' as [Hl Hd].
  destruct (String.eqb_spec s EmptyString) as [E|_];
    [subst s; discriminate|].
  rewrite Hl. rewrite (isInt_digits Digit s Hd). cbn [Nat.eqb negb orb].
  rewrite (Atoi_eight_digits s H). reflexivity.
Qed.

(** X11: what String returns for an unset flag, or for a flag holding a
    validated value of 8 digits, Set takes back: it returns no error and
    stores the same value, whatever the flag held. *)
Theorem Set_String_roundtrip Local Digit ymd ymd' :
  ValidateYMD Local (yyyymmdd ymd) = None ->
  yyyymmdd ymd = 0 \/ 10000000 <= yyyymmdd ymd ->
  StringToYMD Local Digit (fst (String_ ymd)) = (yyyymmdd ymd, None)
  /\ Set_ Local Digit (fst (String_ ymd)) ymd' = (None, ymd).
Proof.
  intros V Hv.
  assert (E : StringToYMD Local Digit (AsYMDString ymd)
              = (yyyymmdd ymd, None)).
  { destruct Hv as [Z|G].
    - unfold AsYMDString. rewrite Z. reflexivity.
    - destruct (ValidateYMD_sound Local _ V) as [Z|[Hr _]]; [lia|].
      assert (H8 : eight_ascii_digits (AsYMDString ymd) = true).
      { unfold eight_ascii_digits.
        destruct (AsYMDString_length ymd ltac:(lia)) as [_ L].
        rewrite (L G). cbn [Nat.eqb andb].
        unfold AsYMDString. destruct (Z.eqb_spec (yyyymmdd ymd) 0); [lia|].
        apply Itoa_digits. lia. }
      rewrite (StringToYMD_eight_digits Local Digit _ H8).
      assert (D : decimal_value (AsYMDString ymd) = yyyymmdd ymd).
      { unfold AsYMDString. destruct (Z.eqb_spec (yyyymmdd ymd) 0); [lia|].
        apply Itoa_digits. lia. }
      rewrite D, V. reflexivity. }
  change (fst (String_ ymd)) with (AsYMDString ymd).
  split; [exact E|].
  unfold Set_. rewrite E. destruct ymd. reflexivity.
Qed.

Lemma Set_String_roundtrip_witness :
  Set_ Havana (fun _ => false) (fst (String_ (mkYMDFlag 20240229)))
    (mkYMDFlag 19991231)
  = (None, mkYMDFlag 20240229).
Proof.
  apply Set_String_roundtrip.
  - vm_compute. reflexivity.
  - right. cbn. lia.
Defined.

(** ** What isInt lets through *)

Lemma cont_ge b : utf8.cont b = true -> 128 <= b.
Proof.
  unfold utf8.cont, utf8.locb. rewrite andb_true_iff, !Z.leb_le. lia.
Qed.

(** A multi-byte rune takes only continuation bytes after its first byte,
    so the ASCII bytes that follow are still to be read. *)
Lemma decoderune_skip s0 rest :
  (1 <= snd (utf8.decoderune (s0 :: rest)))%nat
  /\ forall b, In b rest -> b < 128 ->
     In b (skipn (snd (utf8.decoderune (s0 :: rest))) (s0 :: rest)).
Proof.
  unfold utf8.decoderune. cbv zeta.
  repeat match goal with
         | |- context [if ?c then _ else _] => destruct c eqn:?
         | |- context [match ?l with [] => _ | _ :: _ => _ end] => destruct l
         end;
    cbn [snd]; (split; [lia|]); intros b Hb Hlt; cbn [skipn];
    try exact Hb;
    repeat match goal with
           | H : _ && _ = true |- _ => apply andb_prop in H; destruct H
           end;
    repeat match goal with
           | H : utf8.cont _ = true |- _ => apply cont_ge in H
           end;
    repeat match goal with
           | H : (_ <? _) = _ |- _ => clear H
           | H : (_ <=? _) = _ |- _ => clear H
           | H : negb _ = _ |- _ => clear H
           | H : _ && _ = false |- _ => clear H
           end;
    cbn [In] in Hb;
    repeat (destruct Hb as [Hb|Hb]; [lia|]); exact Hb.
Qed.

Lemma range_fuel_keeps_ascii fuel :
  forall s, (List.length s <= fuel)%nat ->
  forall b, In b s -> b < 128 -> In b (utf8.range_fuel fuel s).
Proof.
  induction fuel as [|fuel IH]; intros s Hl b Hb Hlt.
  - destruct s; [contradiction|cbn in Hl; lia].
  - destruct s as [|b0 rest]; [contradiction|].
    cbn [utf8.range_fuel]. unfold utf8.RuneSelf.
    destruct (Z.ltb_spec b0 128) as [A|A].
    + destruct Hb as [->|Hb]; [left; reflexivity|right].
      apply IH; [cbn in Hl; lia|exact Hb|exact Hlt].
    + destruct (decoderune_skip b0 rest) as [Hw Hs].
      destruct (utf8.decoderune (b0 :: rest)) as [r w].
      cbn [snd] in Hw, Hs.
      right. apply IH.
      * rewrite length_skipn. cbn [List.length] in *. lia.
      * destruct Hb as [->|Hb]; [lia|]. apply Hs; assumption.
      * exact Hlt.
Qed.

(** X13: isInt lets no ASCII byte through that is not a digit, wherever
    it stands in the string and whatever the table of Unicode digits: no
    sign, separator, letter or space; and on a string of ASCII bytes it is
    exactly the test that all are digits. *)
Theorem isInt_ascii_bytes_are_digits Digit s :
  (isInt Digit s = true ->
   forall b, In b (bytes s) -> b < 128 -> is_ascii_digit b = true)
  /\ ((forall b, In b (bytes s) -> b < 128) ->
      isInt Digit s = all_digits s).
Proof.
  split.
  - intros H b Hb Hlt. unfold isInt, utf8.range in H.
    rewrite forallb_forall in H.
    assert (Hl : (List.length (bytes s) <= String.length s)%nat)
      by (rewrite length_bytes; lia).
    specialize (H b (range_fuel_keeps_ascii (String.length s) (bytes s)
                       Hl b Hb Hlt)).
    rewrite IsDigit_ascii in H by lia. exact H.
  - intros Ha. unfold isInt, utf8.range, all_digits.
    rewrite range_fuel_ascii.
    + assert (Hr := bytes_range s). revert Ha Hr.
      generalize (bytes s) as bs.
      induction bs as [|b bs IH]; intros Ha Hr; [reflexivity|].
      inversion Hr as [|? ? Hb Hr']; subst. cbn [forallb].
      rewrite IsDigit_ascii by lia. f_equal.
      apply IH; [|exact Hr']. intros c Hc. apply Ha. right. exact Hc.
    + rewrite length_bytes. lia.
    + apply forallb_forall. intros b Hb. apply Z.ltb_lt.
      unfold utf8.RuneSelf. apply Ha. exact Hb.
Qed.

Lemma isInt_ascii_bytes_are_digits_witness :
  is_ascii_digit 50 = true.
Proof.
  apply (proj1 (isInt_ascii_bytes_are_digits (fun _ => false) "20220101")).
  - vm_compute. reflexivity.
  - vm_compute. auto.
  - lia.
Defined.

(** ** The width of the directory path *)

(** X14: for a stored value of 1 to 8 digits and an ASCII separator, the
    path has exactly 10 characters: 4 digits that denote the year, the
    separator, 2 digits that denote the month, the separator, and 2 digits
    that denote the day. *)
Theorem FormatDirPath_fixed_width ymd separator :
  0 < yyyymmdd ymd <= 99999999 -> 0 <= separator < 128 ->
  exists Y M D,
    FormatDirPath ymd separator
    = (Y ++ String (char_of separator) (M ++ String (char_of separator) D))%string
    /\ String.length Y = 4%nat /\ String.length M = 2%nat
    /\ String.length D = 2%nat
    /\ all_digits Y = true /\ all_digits M = true /\ all_digits D = true
    /\ decimal_value Y = year_of (yyyymmdd ymd)
    /\ decimal_value M = month_of (yyyymmdd ymd)
    /\ decimal_value D = day_of (yyyymmdd ymd)
    /\ String.length (FormatDirPath ymd separator) = 10%nat.
Proof.
  intros Hv Hs.
  destruct (decomposition_range (yyyymmdd ymd) ltac:(lia))
    as (Hy & Hm & Hd & _).
  assert (P : forall w n, 2 <= w -> 0 <= n < 10 ^ w ->
              n < 9223372036854775808 ->
              Z.of_nat (String.length (fmt.fmt0d w n)) = w
              /\ all_digits (fmt.fmt0d w n) = true
              /\ decimal_value (fmt.fmt0d w n) = n).
  { intros w n Hw Hn Hb.
    pose proof (fmt0d_zero_padded w n Hw ltac:(lia)) as Z.
    unfold zero_padded in Z. destruct (Z.ltb_spec n 0); [lia|].
    split; [apply (padded_digits_exact w n _ Z); lia|].
    destruct Z as (A & B & _). auto. }
  destruct (P 4 (year_of (yyyymmdd ymd)) ltac:(lia)
              ltac:(change (10 ^ 4) with 10000; lia) ltac:(lia))
    as (LY & DY & VY).
  destruct (P 2 (month_of (yyyymmdd ymd)) ltac:(lia)
              ltac:(change (10 ^ 2) with 100; lia) ltac:(lia))
    as (LM & DM & VM).
  destruct (P 2 (day_of (yyyymmdd ymd)) ltac:(lia)
              ltac:(change (10 ^ 2) with 100; lia) ltac:(lia))
    as (LD & DD & VD).
  assert (E : FormatDirPath ymd separator
              = (fmt.fmt0d 4 (year_of (yyyymmdd ymd))
                 ++ String (char_of separator)
                      (fmt.fmt0d 2 (month_of (yyyymmdd ymd))
                       ++ String (char_of separator)
                            (fmt.fmt0d 2 (day_of (yyyymmdd ymd)))))%string).
  { unfold FormatDirPath, AsYearMonthDay, IsZero.
    destruct (Z.eqb_spec (yyyymmdd ymd) 0); [lia|].
    destruct (decomposition_pos (yyyymmdd ymd) ltac:(lia)) as (-> & -> & ->).
    rewrite (fmtC_ascii separator Hs). reflexivity. }
  exists (fmt.fmt0d 4 (year_of (yyyymmdd ymd))),
         (fmt.fmt0d 2 (month_of (yyyymmdd ymd))),
         (fmt.fmt0d 2 (day_of (yyyymmdd ymd))).
  split; [exact E|].
  repeat (split; [first [assumption | lia]|]).
  rewrite E. rewrite length_app. cbn [String.length].
  rewrite length_app. cbn [String.length]. lia.
Qed.

Lemma FormatDirPath_fixed_width_witness :
  exists Y M D,
    FormatDirPath (mkYMDFlag 9990101) 47
    = (Y ++ String (char_of 47) (M ++ String (char_of 47) D))%string
    /\ String.length Y = 4%nat /\ String.length M = 2%nat
    /\ String.length D = 2%nat
    /\ all_digits Y = true /\ all_digits M = true /\ all_digits D = true
    /\ decimal_value Y = year_of (yyyymmdd (mkYMDFlag 9990101))
    /\ decimal_value M = month_of (yyyymmdd (mkYMDFlag 9990101))
    /\ decimal_value D = day_of (yyyymmdd (mkYMDFlag 9990101))
    /\ String.length (FormatDirPath (mkYMDFlag 9990101) 47) = 10%nat.
Proof.
  apply FormatDirPath_fixed_width; cbn; lia.
Defined.

(** ** Which error StringToYMD returns *)

(** X15: the error of StringToYMD tells what was wrong: a string that is
    not empty and has not 8 bytes, or has a rune that is no digit, is a
    format error; 8 bytes of digits that are not all ASCII digits pass the
    format check and fail in strconv.Atoi, with its syntax error wrapped;
    8 ASCII digits that ValidateYMD rejects carry its error wrapped.  An
    error always comes with the value 0. *)
Theorem StringToYMD_error_kinds Local Digit str :
  (str <> EmptyString -> String.length str <> 8%nat ->
   StringToYMD Local Digit str = (0, Some ErrFormat))
  /\ (String.length str = 8%nat -> isInt Digit str = false ->
      StringToYMD Local Digit str = (0, Some ErrFormat))
  /\ (String.length str = 8%nat -> isInt Digit str = true ->
      all_digits str = false ->
      StringToYMD Local Digit str
      = (0, Some (ErrConvert strconv.ErrSyntax)))
  /\ (forall e, eight_ascii_digits str = true ->
      ValidateYMD Local (decimal_value str) = Some e ->
      StringToYMD Local Digit str = (0, Some (ErrValidateString e)))
  /\ (forall v e, StringToYMD Local Digit str = (v, Some e) -> v = 0).
Proof.
  split; [|split; [|split; [|split]]].
  - intros Hne Hl. unfold StringToYMD.
    destruct (String.eqb_spec str EmptyString) as [E|_]; [contradiction|].
    destruct (Nat.eqb_spec (String.length str) 8); [contradiction|].
    reflexivity.
  - intros Hl Hi. unfold StringToYMD.
    destruct (String.eqb_spec str EmptyString) as [E|_];
      [subst str; discriminate|].
    rewrite Hl, Hi. reflexivity.
  - intros Hl Hi Hd. unfold StringToYMD.
    destruct (String.eqb_spec str EmptyString) as [E|_];
      [subst str; discriminate|].
    rewrite Hl, Hi. cbn [Nat.eqb negb orb].
    rewrite (Atoi_eight_not_digits Digit str Hl Hd Hi). reflexivity.
  - intros e H8 V.
    rewrite (StringToYMD_eight_digits Local Digit str H8), V. reflexivity.
  - intros v e. unfold StringToYMD.
    destruct (String.eqb str EmptyString); [discriminate|].
    destruct (_ || _); [intros E; inversion E; reflexivity|].
    destruct (strconv.Atoi str) as [n [e'|]];
      [intros E; inversion E; reflexivity|].
    destruct (ValidateYMD Local n); intros E; inversion E; reflexivity.
Qed.

Lemma StringToYMD_error_kinds_witness :
  StringToYMD Havana (fun r => (1632 <=? r) && (r <=? 1641))
    (of_bytes [217; 160; 217; 161; 217; 162; 217; 163])
  = (0, Some (ErrConvert strconv.ErrSyntax))
  /\ StringToYMD Havana (fun _ => false) "20230229"
     = (0, Some (ErrValidateString ErrBadOrUnnormalized)).
Proof.
  destruct (StringToYMD_error_kinds Havana
              (fun r => (1632 <=? r) && (r <=? 1641))
              (of_bytes [217; 160; 217; 161; 217; 162; 217; 163]))
    as (_ & _ & H3 & _).
  destruct (StringToYMD_error_kinds Havana (fun _ => false) "20230229")
    as (_ & _ & _ & H4 & _).
  split.
  - apply H3; vm_compute; reflexivity.
  - apply H4; vm_compute; reflexivity.
Defined.

(** ** Decomposing the stored value *)

(** X16: AsYearMonthDay loses nothing: for every flag, set or not, and for
    every int, 10000 * year + 100 * month + day is the stored value, with
    month and day within two digits, and of the sign of the value. *)
Theorem AsYearMonthDay_recomposes ymd :
  10000 * fst (fst (AsYearMonthDay ymd))
  + 100 * snd (fst (AsYearMonthDay ymd)) + snd (AsYearMonthDay ymd)
  = yyyymmdd ymd
  /\ - 99 <= snd (fst (AsYearMonthDay ymd)) <= 99
  /\ - 99 <= snd (AsYearMonthDay ymd) <= 99
  /\ (0 <= yyyymmdd ymd ->
      0 <= fst (fst (AsYearMonthDay ymd))
      /\ 0 <= snd (fst (AsYearMonthDay ymd))
      /\ 0 <= snd (AsYearMonthDay ymd))
  /\ (yyyymmdd ymd <= 0 ->
      fst (fst (AsYearMonthDay ymd)) <= 0
      /\ snd (fst (AsYearMonthDay ymd)) <= 0
      /\ snd (AsYearMonthDay ymd) <= 0).
Proof.
  unfold AsYearMonthDay, IsZero.
  destruct (Z.eqb_spec (yyyymmdd ymd) 0) as [E|E]; cbn [fst snd].
  - rewrite E. lia.
  - generalize (yyyymmdd ymd) as v. intros v.
    Z.to_euclidean_division_equations. lia.
Qed.

Lemma AsYearMonthDay_recomposes_witness :
  0 <= fst (fst (AsYearMonthDay (mkYMDFlag 20221341)))
  /\ 0 <= snd (fst (AsYearMonthDay (mkYMDFlag 20221341)))
  /\ 0 <= snd (AsYearMonthDay (mkYMDFlag 20221341)).
Proof.
  destruct (AsYearMonthDay_recomposes (mkYMDFlag 20221341))
    as (_ & _ & _ & H & _).
  apply H. cbn. lia.
Defined.
